(** * DPDK packet capture library: a shallow embedding of
      [src/dpdk/libdpdk_capture.c] and [src/dpdk/dpdk_capture.h].

    The library is glue code over the DPDK runtime.  Every DPDK entry point
    the C code calls is an _external call_: the program is embedded as a
    finite tree of such calls (an inductive free monad), the file-scope
    variables of the C file are threaded as an explicit record, and a run of
    the program against any driver (a [handler]) yields the returned value
    together with the trace of calls that were issued and their answers. *)

From Stdlib Require Import ZArith List String Bool Lia.
Import ListNotations.
Local Open Scope string_scope.
Local Open Scope list_scope.
Local Open Scope Z_scope.

(** ** C integer conversions *)

Module CInt.

Definition u8 (z : Z) : Z := z mod 2 ^ 8.
Definition u16 (z : Z) : Z := z mod 2 ^ 16.
Definition u32 (z : Z) : Z := z mod 2 ^ 32.

End CInt.
Import CInt.

(** ** Constants *)

(** [dpdk_capture.h], line 13. *)
Definition MAX_PKT_BURST : Z := 32.
(** [dpdk_capture.h], line 14 (declared, never used). *)
Definition MAX_CORES : Z := 16.

(** Constants of the DPDK and libc headers the C file includes. *)
Definition RTE_ETHER_MAX_LEN : Z := 1518.
Definition RTE_ETH_TX_OFFLOAD_MBUF_FAST_FREE : Z := Z.shiftl 1 16.
Definition RTE_MBUF_DEFAULT_BUF_SIZE : Z := 2048 + 128.
Definition SIGINT : Z := 2.
Definition SIGTERM : Z := 15.

(** ** Data *)

(** A [struct rte_mempool *] is an [option mempool]: [None] for NULL,
    [Some] of a handle otherwise. *)
Definition mempool := Z.

(** The part of [struct rte_mbuf] the code reads:
    [rte_pktmbuf_mtod] and [rte_pktmbuf_data_len]. *)
Record rte_mbuf := mk_mbuf {
  mbuf_id : Z;
  mbuf_data : Z;
  mbuf_data_len : Z
}.

(** [struct packet], [dpdk_capture.h] lines 17-22: a [uint8_t *], a
    [uint16_t], a [uint8_t] and a [uint32_t]. *)
Module Packet.
Record t := mk {
  data : Z;
  length : Z;
  port : Z;
  timestamp : Z
}.
End Packet.
Definition packet := Packet.t.

Record rte_eth_txconf := mk_txconf {
  txconf_driver : Z;
  txconf_offloads : Z
}.

Record rte_eth_dev_info := mk_dev_info {
  tx_offload_capa : Z;
  default_txconf : rte_eth_txconf
}.

Record rte_eth_conf := mk_eth_conf {
  rxmode_max_lro_pkt_size : Z;
  txmode_offloads : Z
}.

Record rte_eth_stats := mk_eth_stats {
  ipackets : Z;
  opackets : Z;
  ibytes : Z;
  obytes : Z
}.

(** [port_conf_default], lines 30-34. *)
Definition port_conf_default : rte_eth_conf :=
  {| rxmode_max_lro_pkt_size := RTE_ETHER_MAX_LEN; txmode_offloads := 0 |}.

(** ** External calls *)

Inductive call : Type :=
| rte_eal_init (argv : list string)
| rte_eal_cleanup
| rte_eth_dev_count_avail
| rte_socket_id
| rte_pktmbuf_pool_create (name : string) (n cache_size priv_size
                           data_room_size socket_id : Z)
| rte_eth_dev_is_valid_port (port_id : Z)
| rte_eth_dev_info_get (port_id : Z)
| rte_eth_dev_configure (port_id nb_rx_q nb_tx_q : Z) (conf : rte_eth_conf)
| rte_eth_dev_adjust_nb_rx_tx_desc (port_id nb_rx_desc nb_tx_desc : Z)
| rte_eth_dev_socket_id (port_id : Z)
| rte_eth_rx_queue_setup (port_id queue_id nb_desc socket_id : Z)
                         (mb_pool : option mempool)
| rte_eth_tx_queue_setup (port_id queue_id nb_desc socket_id : Z)
                         (conf : rte_eth_txconf)
| rte_eth_dev_start (port_id : Z)
| rte_eth_macaddr_get (port_id : Z)
| rte_eth_promiscuous_enable (port_id : Z)
| rte_eth_rx_burst (port_id queue_id nb_pkts : Z)
| rte_get_tsc_cycles
| rte_get_tsc_hz
| rte_pktmbuf_free (m : rte_mbuf)
| rte_eth_stats_get (port_id : Z)
| rte_eth_dev_stop (port_id : Z)
| rte_eth_dev_close (port_id : Z)
| signal (signum : Z)
| printf (format : string) (args : list Z).

(** What a call hands back: its return value and, for a call with output
    parameters, what it stored through them.  [rte_eth_rx_burst] answers
    with the mbuf pointers it stored at the front of the array it was
    given; its return value is their number. *)
Definition resp (c : call) : Type :=
  match c with
  | rte_pktmbuf_pool_create _ _ _ _ _ _ => option mempool
  | rte_eth_dev_info_get _ => (Z * rte_eth_dev_info)%type
  | rte_eth_dev_adjust_nb_rx_tx_desc _ _ _ => (Z * (Z * Z))%type
  | rte_eth_macaddr_get _ => (Z * list Z)%type
  | rte_eth_rx_burst _ _ _ => list rte_mbuf
  | rte_eth_stats_get _ => (Z * rte_eth_stats)%type
  | rte_pktmbuf_free _ | signal _ | printf _ _ => unit
  | _ => Z
  end.

Definition event : Type := { c : call & resp c }.

Definition called (e : event) : call := projT1 e.

(** ** Programs over external calls *)

(** Behaviour the C standard leaves undefined. *)
Inductive undefined : Type :=
| DivisionByZero
| BufsOutOfBounds
| PacketsOutOfBounds.

Inductive prog (A : Type) : Type :=
| Ret (a : A)
| Trap (u : undefined)
| Call (c : call) (k : resp c -> prog A).

Arguments Ret {A} a.
Arguments Trap {A} u.
Arguments Call {A} c k.

Fixpoint bind {A B : Type} (p : prog A) (f : A -> prog B) : prog B :=
  match p with
  | Ret a => f a
  | Trap u => Trap u
  | Call c k => Call c (fun r => bind (k r) f)
  end.

Definition extcall (c : call) : prog (resp c) := Call c Ret.

Declare Scope prog_scope.
Delimit Scope prog_scope with prog.
Notation "x <- p ;; q" := (bind p (fun x => q))
  (at level 61, p at next level, right associativity) : prog_scope.
Notation "' pat <- p ;; q" := (bind p (fun x => match x with pat => q end))
  (at level 61, pat pattern, p at next level, right associativity) : prog_scope.
Notation "p ;; q" := (bind p (fun _ => q))
  (at level 61, right associativity) : prog_scope.
Local Open Scope prog_scope.

(** [for (i = start; i < start + count; i++) body] over a loop state. *)
Fixpoint for_loop {S : Type} (count : nat) (i : Z)
         (body : Z -> S -> prog S) (s : S) : prog S :=
  match count with
  | O => Ret s
  | Datatypes.S count' => s' <- body i s ;; for_loop count' (i + 1) body s'
  end.

(** ** Running a program against a driver *)

Inductive outcome (A : Type) : Type :=
| Done (a : A)
| Undefined (u : undefined).

Arguments Done {A} a.
Arguments Undefined {A} u.

Definition handler (W : Type) : Type := forall c : call, W -> resp c * W.

Fixpoint run {W A : Type} (h : handler W) (p : prog A) (w : W)
  : outcome A * W * list event :=
  match p with
  | Ret a => (Done a, w, [])
  | Trap u => (Undefined u, w, [])
  | Call c k =>
      let (r, w1) := h c w in
      let '(o, w2, tr) := run h (k r) w1 in
      (o, w2, existT resp c r :: tr)
  end.

Definition result {W A : Type} (x : outcome A * W * list event) : outcome A :=
  fst (fst x).
Definition trace {W A : Type} (x : outcome A * W * list event) : list event :=
  snd x.

(** ** The file-scope variables, lines 24-27 *)

Record globals := mk_globals {
  mbuf_pool : option mempool;
  g_port_id : Z;
  g_batch_size : Z;
  force_quit : Z
}.

Definition initial_globals : globals :=
  {| mbuf_pool := None;
     g_port_id := 0;
     g_batch_size := MAX_PKT_BURST;
     force_quit := 0 |}.

Definition set_force_quit (v : Z) (g : globals) : globals :=
  {| mbuf_pool := mbuf_pool g; g_port_id := g_port_id g;
     g_batch_size := g_batch_size g; force_quit := v |}.
Definition set_g_port_id (v : Z) (g : globals) : globals :=
  {| mbuf_pool := mbuf_pool g; g_port_id := v;
     g_batch_size := g_batch_size g; force_quit := force_quit g |}.
Definition set_g_batch_size (v : Z) (g : globals) : globals :=
  {| mbuf_pool := mbuf_pool g; g_port_id := g_port_id g;
     g_batch_size := v; force_quit := force_quit g |}.
Definition set_mbuf_pool (v : option mempool) (g : globals) : globals :=
  {| mbuf_pool := v; g_port_id := g_port_id g;
     g_batch_size := g_batch_size g; force_quit := force_quit g |}.

(** ** [signal_handler], lines 36-42 *)

Definition signal_handler (signum : Z) (g : globals) : prog (unit * globals) :=
  if (signum =? SIGINT) || (signum =? SIGTERM) then
    extcall (printf "\nSignal %d received, preparing to exit...\n" [signum]) ;;
    Ret (tt, set_force_quit 1 g)
  else Ret (tt, g).

(** ** [port_init], lines 44-115 *)

(** A [for (q = 0; q < count; q++)] loop whose body may [return]: the body
    answers [Some v] to leave the enclosing function with [v]. *)
Fixpoint for_queues (count : nat) (q : Z) (body : Z -> prog (option Z))
  : prog (option Z) :=
  match count with
  | O => Ret None
  | S count' =>
      r <- body q ;;
      match r with
      | Some v => Ret (Some v)
      | None => for_queues count' (q + 1) body
      end
  end.

Definition port_init (port : Z) (mbuf_pool : option mempool) : prog Z :=
  let port_conf := port_conf_default in
  let rx_rings := 1 in
  let tx_rings := 1 in
  let nb_rxd := 1024 in
  let nb_txd := 1024 in
  valid <- extcall (rte_eth_dev_is_valid_port port) ;;
  if valid =? 0 then Ret (-1) else
  '(retval, dev_info) <- extcall (rte_eth_dev_info_get port) ;;
  if negb (retval =? 0) then
    extcall (printf "Error during getting device (port %u) info: %s\n"
                    [port; - retval]) ;;
    Ret retval
  else
  let port_conf :=
    if negb (Z.land (tx_offload_capa dev_info)
                    RTE_ETH_TX_OFFLOAD_MBUF_FAST_FREE =? 0)
    then {| rxmode_max_lro_pkt_size := rxmode_max_lro_pkt_size port_conf;
            txmode_offloads := Z.lor (txmode_offloads port_conf)
                                     RTE_ETH_TX_OFFLOAD_MBUF_FAST_FREE |}
    else port_conf in
  retval <- extcall (rte_eth_dev_configure port rx_rings tx_rings port_conf) ;;
  if negb (retval =? 0) then Ret retval else
  '(retval, (nb_rxd, nb_txd)) <-
     extcall (rte_eth_dev_adjust_nb_rx_tx_desc port nb_rxd nb_txd) ;;
  if negb (retval =? 0) then Ret retval else
  left <- for_queues (Z.to_nat rx_rings) 0 (fun q =>
            socket <- extcall (rte_eth_dev_socket_id port) ;;
            retval <- extcall (rte_eth_rx_queue_setup port q nb_rxd socket
                                                      mbuf_pool) ;;
            Ret (if retval <? 0 then Some (retval : Z) else None)) ;;
  match left with Some retval => Ret retval | None =>
  let txconf := default_txconf dev_info in
  let txconf := {| txconf_driver := txconf_driver txconf;
                   txconf_offloads := txmode_offloads port_conf |} in
  left <- for_queues (Z.to_nat tx_rings) 0 (fun q =>
            socket <- extcall (rte_eth_dev_socket_id port) ;;
            retval <- extcall (rte_eth_tx_queue_setup port q nb_txd socket
                                                      txconf) ;;
            Ret (if retval <? 0 then Some (retval : Z) else None)) ;;
  match left with Some retval => Ret retval | None =>
  retval <- extcall (rte_eth_dev_start port) ;;
  if retval <? 0 then Ret retval else
  '(retval, addr) <- extcall (rte_eth_macaddr_get port) ;;
  if negb (retval =? 0) then Ret retval else
  extcall (printf "Port %u MAC: %02x:%02x:%02x:%02x:%02x:%02x\n"
                  (port :: addr)) ;;
  retval <- extcall (rte_eth_promiscuous_enable port) ;;
  if negb (retval =? 0) then Ret retval else
  Ret 0
  end end.

(** ** [dpdk_init], lines 117-182 *)

(** Line 157. *)
Definition clamp_batch_size (batch_size : Z) : Z :=
  if (batch_size >? 0) && (batch_size <=? MAX_PKT_BURST)
  then batch_size else MAX_PKT_BURST.

Definition dpdk_init (port : Z) (cores : string) (batch_size : Z)
           (g : globals) : prog (Z * globals) :=
  let app_name := "dpdk_capture" in
  (* snprintf into char core_arg[64] keeps at most 63 characters *)
  let core_arg := substring 0 63 cores in
  let argv := [app_name; "-l"; core_arg; "--"] in
  ret <- extcall (rte_eal_init argv) ;;
  if ret <? 0 then
    extcall (printf "Error with EAL initialization\n" []) ;;
    Ret (-1, g)
  else
  nb_ports <- extcall rte_eth_dev_count_avail ;;
  if nb_ports =? 0 then
    extcall (printf "Error: no Ethernet ports available\n" []) ;;
    extcall rte_eal_cleanup ;;
    Ret (-2, g)
  else
  (* int against unsigned: [port] is converted to unsigned *)
  if u32 port >=? nb_ports then
    extcall (printf "Error: port %d not available (only %u ports)\n"
                    [port; nb_ports]) ;;
    extcall rte_eal_cleanup ;;
    Ret (-3, g)
  else
  let g := set_g_port_id port g in
  let g := set_g_batch_size (clamp_batch_size batch_size) g in
  socket <- extcall rte_socket_id ;;
  pool <- extcall (rte_pktmbuf_pool_create "MBUF_POOL" 8192 250 0
                     RTE_MBUF_DEFAULT_BUF_SIZE socket) ;;
  let g := set_mbuf_pool pool g in
  match mbuf_pool g with
  | None =>
      extcall (printf "Error: cannot create mbuf pool\n" []) ;;
      extcall rte_eal_cleanup ;;
      Ret (-4, g)
  | Some _ =>
  r <- port_init (u16 (g_port_id g)) (mbuf_pool g) ;;
  if negb (r =? 0) then
    extcall (printf "Error: cannot init port %d\n" [g_port_id g]) ;;
    extcall rte_eal_cleanup ;;
    Ret (-5, g)
  else
  extcall (signal SIGINT) ;;
  extcall (signal SIGTERM) ;;
  extcall (printf "DPDK initialized successfully on port %d\n"
                  [g_port_id g]) ;;
  Ret (0, g)
  end.

(** ** [dpdk_capture_packets], lines 184-224 *)

(** [bufs[i]] in the local array [struct rte_mbuf *bufs[MAX_PKT_BURST]],
    whose front holds what the burst receive stored. *)
Definition bufs_read (bufs : list rte_mbuf) (i : Z) : prog rte_mbuf :=
  if (0 <=? i) && (i <? MAX_PKT_BURST) then
    match nth_error bufs (Z.to_nat i) with
    | Some m => Ret m
    | None => Trap BufsOutOfBounds
    end
  else Trap BufsOutOfBounds.

(** [packets[i] = p] in the caller's array. *)
Fixpoint store_at (arr : list packet) (i : nat) (p : packet)
  : option (list packet) :=
  match arr, i with
  | [], _ => None
  | _ :: rest, O => Some (p :: rest)
  | x :: rest, S i' => option_map (cons x) (store_at rest i' p)
  end.

Definition packets_write (arr : list packet) (i : Z) (p : packet)
  : prog (list packet) :=
  match store_at arr (Z.to_nat i) p with
  | Some arr' => Ret arr'
  | None => Trap PacketsOutOfBounds
  end.

(** Lines 212-215: the four fields stored into [packets[i]]. *)
Definition fill_packet (g : globals) (timestamp : Z) (mbuf : rte_mbuf)
  : packet :=
  {| Packet.data := mbuf_data mbuf;
     Packet.length := mbuf_data_len mbuf;
     Packet.port := u8 (g_port_id g);
     Packet.timestamp := timestamp |}.

(** Body of the loop on lines 209-216. *)
Definition copy_out (bufs : list rte_mbuf) (g : globals) (timestamp : Z)
           (i : Z) (arr : list packet) : prog (list packet) :=
  mbuf <- bufs_read bufs i ;;
  packets_write arr i (fill_packet g timestamp mbuf).

(** Body of the loop on lines 219-221. *)
Definition release (bufs : list rte_mbuf) (i : Z) (_ : unit) : prog unit :=
  mbuf <- bufs_read bufs i ;;
  extcall (rte_pktmbuf_free mbuf).

(** Line 196. *)
Definition capture_count (max_packets : Z) (g : globals) : Z :=
  if max_packets <? g_batch_size g then max_packets else g_batch_size g.

(** The caller's array is [None] for a NULL pointer and [Some arr] for an
    array holding [arr]; the function hands the array back as it leaves it.
    The two operands of the division on line 206 are calls; they are taken
    left to right. *)
Definition dpdk_capture_packets (packets : option (list packet))
           (max_packets : Z) (g : globals)
  : prog (Z * option (list packet) * globals) :=
  match packets with
  | None => Ret (-1, packets, g)
  | Some arr =>
  if max_packets <=? 0 then Ret (-1, packets, g) else
  let capture_count := capture_count max_packets g in
  bufs <- extcall (rte_eth_rx_burst (u16 (g_port_id g)) 0
                                    (u16 capture_count)) ;;
  let nb_rx := Z.of_nat (List.length bufs) in
  if nb_rx =? 0 then Ret (0, packets, g) else
  cycles <- extcall rte_get_tsc_cycles ;;
  hz <- extcall rte_get_tsc_hz ;;
  if hz =? 0 then Trap DivisionByZero else
  let timestamp := u32 (cycles / hz) in
  arr <- for_loop (Z.to_nat nb_rx) 0 (copy_out bufs g timestamp) arr ;;
  for_loop (Z.to_nat nb_rx) 0 (release bufs) tt ;;
  Ret (nb_rx, Some arr, g)
  end.

(** ** [dpdk_get_stats], lines 226-247 *)

(** An output pointer is [None] when NULL and [Some v] when it points to a
    cell holding [v]; the cells are handed back as the function leaves
    them. *)
Definition out_ptrs : Type :=
  (option Z * option Z * option Z * option Z)%type.

Definition store_through (ptr : option Z) (v : Z) : option Z :=
  match ptr with
  | Some _ => Some v
  | None => None
  end.

Definition dpdk_get_stats (port : Z) (outs : out_ptrs) (g : globals)
  : prog (Z * out_ptrs * globals) :=
  let '(rx_packets, tx_packets, rx_bytes, tx_bytes) := outs in
  if negb (port =? g_port_id g) then Ret (-1, outs, g) else
  '(ret, stats) <- extcall (rte_eth_stats_get (u16 port)) ;;
  if negb (ret =? 0) then Ret (ret, outs, g) else
  let rx_packets := store_through rx_packets (ipackets stats) in
  let tx_packets := store_through tx_packets (opackets stats) in
  let rx_bytes := store_through rx_bytes (ibytes stats) in
  let tx_bytes := store_through tx_bytes (obytes stats) in
  Ret (0, (rx_packets, tx_packets, rx_bytes, tx_bytes), g).

(** ** [dpdk_cleanup], lines 249-263 *)

Definition dpdk_cleanup (g : globals) : prog (unit * globals) :=
  extcall (printf "Cleaning up DPDK resources...\n" []) ;;
  valid <- extcall (rte_eth_dev_is_valid_port (u16 (g_port_id g))) ;;
  (if negb (valid =? 0) then
     extcall (rte_eth_dev_stop (u16 (g_port_id g))) ;;
     extcall (rte_eth_dev_close (u16 (g_port_id g))) ;;
     Ret tt
   else Ret tt) ;;
  extcall rte_eal_cleanup ;;
  extcall (printf "DPDK cleanup completed\n" []) ;;
  Ret (tt, g).

(** ** What the code relies on from a driver *)

(** The burst receive stores at most [nb_pkts] mbufs ([nb_pkts] is a
    [uint16_t]). *)
Definition rx_burst_bounded {W : Type} (h : handler W) : Prop :=
  forall port_id queue_id nb_pkts w,
    0 <= nb_pkts ->
    Z.of_nat (List.length (fst (h (rte_eth_rx_burst port_id queue_id nb_pkts) w)))
    <= nb_pkts.

(** ** A sample driver

    A device with a queue of pending frames, a cycle counter and the
    counters of the port.  Configuration calls succeed, except that starting
    the port answers [start_code]; the descriptor adjustment rounds both
    ring sizes down to what the device supports. *)

Module SimNic.

Record nic := mk_nic {
  nb_ports : Z;
  rxq : list rte_mbuf;
  tsc : Z;
  tsc_hz : Z;
  max_desc : Z;
  start_code : Z;
  stats : rte_eth_stats
}.

Definition pop (n : Z) (w : nic) : list rte_mbuf * nic :=
  let got := firstn (Z.to_nat n) (rxq w) in
  (got,
   {| nb_ports := nb_ports w;
      rxq := skipn (Z.to_nat n) (rxq w);
      tsc := tsc w;
      tsc_hz := tsc_hz w;
      max_desc := max_desc w;
      start_code := start_code w;
      stats :=
        {| ipackets := ipackets (stats w) + Z.of_nat (List.length got);
           opackets := opackets (stats w);
           ibytes := ibytes (stats w)
                     + fold_right Z.add 0 (map mbuf_data_len got);
           obytes := obytes (stats w) |} |}).

Definition drive : handler nic :=
  fun c =>
    match c return nic -> resp c * nic with
    | rte_eal_init _ => fun w => (0, w)
    | rte_eal_cleanup => fun w => (0, w)
    | rte_eth_dev_count_avail => fun w => (nb_ports w, w)
    | rte_socket_id => fun w => (0, w)
    | rte_pktmbuf_pool_create _ _ _ _ _ _ => fun w => (Some 1, w)
    | rte_eth_dev_is_valid_port p =>
        fun w => (if p <? nb_ports w then 1 else 0, w)
    | rte_eth_dev_info_get _ =>
        fun w => ((0, {| tx_offload_capa := RTE_ETH_TX_OFFLOAD_MBUF_FAST_FREE;
                         default_txconf := {| txconf_driver := 7;
                                              txconf_offloads := 0 |} |}), w)
    | rte_eth_dev_configure _ _ _ _ => fun w => (0, w)
    | rte_eth_dev_adjust_nb_rx_tx_desc _ r t =>
        fun w => ((0, (Z.min r (max_desc w), Z.min t (max_desc w))), w)
    | rte_eth_dev_socket_id _ => fun w => (0, w)
    | rte_eth_rx_queue_setup _ _ _ _ _ => fun w => (0, w)
    | rte_eth_tx_queue_setup _ _ _ _ _ => fun w => (0, w)
    | rte_eth_dev_start _ => fun w => (start_code w, w)
    | rte_eth_macaddr_get _ => fun w => ((0, [2; 0; 0; 0; 0; 1]), w)
    | rte_eth_promiscuous_enable _ => fun w => (0, w)
    | rte_eth_rx_burst _ _ n => fun w => pop n w
    | rte_get_tsc_cycles => fun w => (tsc w, w)
    | rte_get_tsc_hz => fun w => (tsc_hz w, w)
    | rte_pktmbuf_free _ => fun w => (tt, w)
    | rte_eth_stats_get _ => fun w => ((0, stats w), w)
    | rte_eth_dev_stop _ => fun w => (0, w)
    | rte_eth_dev_close _ => fun w => (0, w)
    | signal _ => fun w => (tt, w)
    | printf _ _ => fun w => (tt, w)
    end.

Definition frame (k : Z) : rte_mbuf :=
  {| mbuf_id := k; mbuf_data := 4096 * k; mbuf_data_len := 64 |}.

Definition no_stats : rte_eth_stats :=
  {| ipackets := 0; opackets := 0; ibytes := 0; obytes := 0 |}.

(** One port, no traffic. *)
Definition idle : nic :=
  {| nb_ports := 1; rxq := []; tsc := 7000000000; tsc_hz := 2000000000;
     max_desc := 512; start_code := 0; stats := no_stats |}.

(** One port that does not start. *)
Definition stuck : nic :=
  {| nb_ports := 1; rxq := []; tsc := 7000000000; tsc_hz := 2000000000;
     max_desc := 512; start_code := -19; stats := no_stats |}.

(** One port, three frames pending. *)
Definition busy : nic :=
  {| nb_ports := 1; rxq := [frame 1; frame 2; frame 3];
     tsc := 7000000000; tsc_hz := 2000000000;
     max_desc := 512; start_code := 0; stats := no_stats |}.

(** One port, one frame pending, a cycle counter that has run for 2^32
    seconds. *)
Definition late : nic :=
  {| nb_ports := 1; rxq := [frame 1];
     tsc := 2 ^ 32 * 2000000000; tsc_hz := 2000000000;
     max_desc := 512; start_code := 0; stats := no_stats |}.

Definition blank : packet :=
  {| Packet.data := 0; Packet.length := 0; Packet.port := 0;
     Packet.timestamp := 0 |}.

End SimNic.

(** ** Observing a capture

    The answers of the driver to the calls one capture issues, and the
    driver states in between, for a capture of [max_packets] in session [g]
    started in driver state [w]. *)

(** The first undefined step of the copy loop (lines 209-216), if any, when
    it starts at index [i] with [rest] still to copy and [room] left in the
    caller's array. *)
Fixpoint copy_fault (i : nat) (rest : list rte_mbuf) (room : list packet)
  : option undefined :=
  match rest with
  | [] => None
  | _ :: rest' =>
      if MAX_PKT_BURST <=? Z.of_nat i then Some BufsOutOfBounds
      else match room with
           | [] => Some PacketsOutOfBounds
           | _ :: room' => copy_fault (S i) rest' room'
           end
  end.

Definition free_event (m : rte_mbuf) : event :=
  existT resp (rte_pktmbuf_free m) tt.

(** The driver state after the mbufs [ms] have been freed in order. *)
Fixpoint after_free {W : Type} (h : handler W) (ms : list rte_mbuf) (w : W)
  : W :=
  match ms with
  | [] => w
  | m :: ms' => after_free h ms' (snd (h (rte_pktmbuf_free m) w))
  end.

Section Observations.

Context {W : Type} (h : handler W).
Variables (max_packets : Z) (g : globals) (w : W).

(** The burst receive the capture issues. *)
Definition burst_call : call :=
  rte_eth_rx_burst (u16 (g_port_id g)) 0 (u16 (capture_count max_packets g)).

(** The mbufs it is answered with. *)
Definition burst : list rte_mbuf := fst (h burst_call w).
Definition after_burst : W := snd (h burst_call w).

(** The readings of the cycle counter and of its frequency that follow. *)
Definition cycles_read : Z := fst (h rte_get_tsc_cycles after_burst).
Definition after_cycles : W := snd (h rte_get_tsc_cycles after_burst).
Definition hz_read : Z := fst (h rte_get_tsc_hz after_cycles).
Definition after_hz : W := snd (h rte_get_tsc_hz after_cycles).

Definition clock_events : list event :=
  [ existT resp burst_call burst;
    existT resp rte_get_tsc_cycles cycles_read;
    existT resp rte_get_tsc_hz hz_read ].

End Observations.

(** A call that was turned away: it returned a negative value. *)
Definition rejected {A : Type} (o : outcome (Z * A * globals)) : Prop :=
  exists ret x g, o = Done (ret, x, g) /\ ret < 0.

(** A trace in which the hardware receive was attempted. *)
Definition receives (tr : list event) : Prop :=
  exists port_id queue_id nb_pkts,
    In (rte_eth_rx_burst port_id queue_id nb_pkts) (map called tr).

(** ** Reasoning about runs by postconditions *)

(** [wp h p w Q]: the run of [p] against [h] from driver state [w] ends in
    an outcome, a driver state and a trace that satisfy [Q]. *)
Fixpoint wp {W A : Type} (h : handler W) (p : prog A) (w : W)
         (Q : outcome A -> W -> list event -> Prop) : Prop :=
  match p with
  | Ret a => Q (Done a) w []
  | Trap u => Q (Undefined u) w []
  | Call c k =>
      wp h (k (fst (h c w))) (snd (h c w))
         (fun o w' tr => Q o w' (existT resp c (fst (h c w)) :: tr))
  end.

(** ** Observing a trace *)

Definition observe {A : Type} (f : event -> option A) (tr : list event)
  : list A :=
  flat_map (fun e => match f e with Some a => [a] | None => [] end) tr.

(** The [nb_pkts] of a burst receive. *)
Definition rx_burst_size (e : event) : option Z :=
  match called e with
  | rte_eth_rx_burst _ _ nb_pkts => Some nb_pkts
  | _ => None
  end.

(** The numbers of receive and transmit queues a port is configured with. *)
Definition configured_queues (e : event) : option (Z * Z) :=
  match called e with
  | rte_eth_dev_configure _ nb_rx_q nb_tx_q _ => Some (nb_rx_q, nb_tx_q)
  | _ => None
  end.

(** The queue index and the ring size of a receive queue set up. *)
Definition rx_queue (e : event) : option (Z * Z) :=
  match called e with
  | rte_eth_rx_queue_setup _ queue_id nb_desc _ _ => Some (queue_id, nb_desc)
  | _ => None
  end.

(** The queue index and the ring size of a transmit queue set up. *)
Definition tx_queue (e : event) : option (Z * Z) :=
  match called e with
  | rte_eth_tx_queue_setup _ queue_id nb_desc _ _ => Some (queue_id, nb_desc)
  | _ => None
  end.

(** The ring sizes a descriptor adjustment was asked about and the ring
    sizes it answered. *)
Definition adjusted (e : event) : option (Z * Z * (Z * Z)) :=
  let (c, r) := e in
  match c return resp c -> option (Z * Z * (Z * Z)) with
  | rte_eth_dev_adjust_nb_rx_tx_desc _ nb_rx_desc nb_tx_desc =>
      fun r => Some (nb_rx_desc, nb_tx_desc, snd r)
  | _ => fun _ => None
  end r.

Definition is_log (e : event) : Prop :=
  match called e with
  | printf _ _ => True
  | _ => False
  end.

(** The value [port_init] returns when the step [e] fails, by the tests on
    lines 55, 59, 70, 74, 81, 91, 97, 103 and 111; [None] when the step did
    not fail or is not a checked step. *)
Definition step_code (e : event) : option Z :=
  let (c, r) := e in
  match c return resp c -> option Z with
  | rte_eth_dev_is_valid_port _ => fun r => if r =? 0 then Some (-1) else None
  | rte_eth_dev_info_get _ =>
      fun r => if negb (fst r =? 0) then Some (fst r) else None
  | rte_eth_dev_configure _ _ _ _ =>
      fun r => if negb (r =? 0) then Some r else None
  | rte_eth_dev_adjust_nb_rx_tx_desc _ _ _ =>
      fun r => if negb (fst r =? 0) then Some (fst r) else None
  | rte_eth_rx_queue_setup _ _ _ _ _ => fun r => if r <? 0 then Some r else None
  | rte_eth_tx_queue_setup _ _ _ _ _ => fun r => if r <? 0 then Some r else None
  | rte_eth_dev_start _ => fun r => if r <? 0 then Some r else None
  | rte_eth_macaddr_get _ =>
      fun r => if negb (fst r =? 0) then Some (fst r) else None
  | rte_eth_promiscuous_enable _ =>
      fun r => if negb (r =? 0) then Some r else None
  | _ => fun _ => None
  end r.

(** A trace that stops at its first failed step: the value returned is the
    code of that step and nothing but logging follows it; when no step
    failed the value returned is 0. *)
Fixpoint aborts_at_first_failure (ret : Z) (tr : list event) : Prop :=
  match tr with
  | [] => ret = 0
  | e :: tr' =>
      match step_code e with
      | Some code => ret = code /\ code <> 0 /\ Forall is_log tr'
      | None => aborts_at_first_failure ret tr'
      end
  end.

(** The single-queue model in a trace of [port_init] that returned [ret]:
    the port is configured with one receive and one transmit queue; a queue
    that is set up is queue 0, set up once, with the ring size the
    descriptor adjustment, asked about 1024 and 1024, answered; a run that
    returned 0 has set up both. *)
Definition single_queue_model (ret : Z) (tr : list event) : Prop :=
  (observe configured_queues tr = []
   \/ observe configured_queues tr = [(1, 1)])
  /\ (observe rx_queue tr = []
      \/ exists rxd txd,
          observe adjusted tr = [(1024, 1024, (rxd, txd))]
          /\ observe rx_queue tr = [(0, rxd)])
  /\ (observe tx_queue tr = []
      \/ exists rxd txd,
          observe adjusted tr = [(1024, 1024, (rxd, txd))]
          /\ observe tx_queue tr = [(0, txd)])
  /\ (ret = 0 ->
      exists rxd txd,
        observe configured_queues tr = [(1, 1)]
        /\ observe adjusted tr = [(1024, 1024, (rxd, txd))]
        /\ observe rx_queue tr = [(0, rxd)]
        /\ observe tx_queue tr = [(0, txd)]).

(** The session after lines 156-160 of [dpdk_init] have run. *)
Definition configured (port : Z) (batch_size : Z) (pool : option mempool)
           (g : globals) : globals :=
  set_mbuf_pool pool
    (set_g_batch_size (clamp_batch_size batch_size) (set_g_port_id port g)).

(** What a run of [dpdk_init] that returned [ret] leaves in the session. *)
Definition dpdk_init_post (port : Z) (batch_size : Z) (g : globals)
           (ret : Z) (g' : globals) : Prop :=
  ((ret = -1 \/ ret = -2 \/ ret = -3) /\ g' = g)
  \/ (ret = -4 /\ g' = configured port batch_size None g)
  \/ ((ret = -5 \/ ret = 0)
      /\ exists pool, g' = configured port batch_size (Some pool) g).

(** ** Sequences of calls into the library *)

Inductive api_call : Type :=
| api_init (port : Z) (cores : string) (batch_size : Z)
| api_capture (packets : option (list packet)) (max_packets : Z)
| api_get_stats (port : Z) (outs : out_ptrs)
| api_cleanup
| api_signal (signum : Z).

(** One call, or one delivery of a signal, keeping the session only. *)
Definition api_step (a : api_call) (g : globals) : prog globals :=
  match a with
  | api_init port cores batch_size =>
      x <- dpdk_init port cores batch_size g ;; Ret (snd x)
  | api_capture packets max_packets =>
      x <- dpdk_capture_packets packets max_packets g ;; Ret (snd x)
  | api_get_stats port outs =>
      x <- dpdk_get_stats port outs g ;; Ret (snd x)
  | api_cleanup =>
      x <- dpdk_cleanup g ;; Ret (snd x)
  | api_signal signum =>
      x <- signal_handler signum g ;; Ret (snd x)
  end.

Fixpoint api_run (calls : list api_call) (g : globals) : prog globals :=
  match calls with
  | [] => Ret g
  | a :: calls' => g' <- api_step a g ;; api_run calls' g'
  end.

(** The batch size of the session lies in [1, MAX_PKT_BURST]. *)
Definition batch_size_ok (g : globals) : Prop :=
  1 <= g_batch_size g <= MAX_PKT_BURST.

(** What [dpdk_get_stats] leaves behind the four output pointers when the
    driver answered with [stats]. *)
Definition stats_stored (outs : out_ptrs) (stats : rte_eth_stats) : out_ptrs :=
  let '(rx_packets, tx_packets, rx_bytes, tx_bytes) := outs in
  (store_through rx_packets (ipackets stats),
   store_through tx_packets (opackets stats),
   store_through rx_bytes (ibytes stats),
   store_through tx_bytes (obytes stats)).

(** The external calls of one [dpdk_cleanup] in session [g], when the
    valid-port check answered [valid]. *)
Definition teardown_calls (g : globals) (valid : Z) : list call :=
  [printf "Cleaning up DPDK resources...\n" [];
   rte_eth_dev_is_valid_port (u16 (g_port_id g))]
  ++ (if negb (valid =? 0)
      then [rte_eth_dev_stop (u16 (g_port_id g));
            rte_eth_dev_close (u16 (g_port_id g))]
      else [])
  ++ [rte_eal_cleanup; printf "DPDK cleanup completed\n" []].

(** ** Further observations *)

(** What lines 212-214 store in a packet for the mbuf it is copied from. *)
Definition copied_from (g : globals) (m : rte_mbuf) (p : packet) : Prop :=
  Packet.data p = mbuf_data m
  /\ Packet.length p = mbuf_data_len m
  /\ Packet.port p = g_port_id g mod 256.

(** An outcome with the session in it replaced. *)
Definition with_session {A : Type} (f : globals -> globals)
           (o : outcome (A * globals)) : outcome (A * globals) :=
  match o with
  | Done (a, g) => Done (a, f g)
  | Undefined u => Undefined u
  end.

(** One port, three frames pending, a cycle counter without a frequency. *)
Definition uncalibrated : SimNic.nic :=
  {| SimNic.nb_ports := 1;
     SimNic.rxq := [SimNic.frame 1; SimNic.frame 2; SimNic.frame 3];
     SimNic.tsc := 7000000000; SimNic.tsc_hz := 0;
     SimNic.max_desc := 512; SimNic.start_code := 0;
     SimNic.stats := SimNic.no_stats |}.

(** The deliveries that make [signal_handler] raise [force_quit]. *)
Definition quit_signal (a : api_call) : bool :=
  match a with
  | api_signal signum => (signum =? SIGINT) || (signum =? SIGTERM)
  | _ => false
  end.

Definition is_init (a : api_call) : bool :=
  match a with
  | api_init _ _ _ => true
  | _ => false
  end.

(** The three variables [dpdk_init] writes. *)
Definition same_configuration (g g' : globals) : Prop :=
  mbuf_pool g' = mbuf_pool g
  /\ g_port_id g' = g_port_id g
  /\ g_batch_size g' = g_batch_size g.

(** ** Observing [port_init] and [dpdk_init] *)

(** A call on the device [port], or a line of logging. *)
Definition port_scoped (port : Z) (c : call) : Prop :=
  match c with
  | rte_eth_dev_is_valid_port p
  | rte_eth_dev_info_get p
  | rte_eth_dev_configure p _ _ _
  | rte_eth_dev_adjust_nb_rx_tx_desc p _ _
  | rte_eth_dev_socket_id p
  | rte_eth_rx_queue_setup p _ _ _ _
  | rte_eth_tx_queue_setup p _ _ _ _
  | rte_eth_dev_start p
  | rte_eth_macaddr_get p
  | rte_eth_promiscuous_enable p => p = port
  | printf _ _ => True
  | _ => False
  end.

(** The pool a receive queue is set up with. *)
Definition rx_queue_pool (e : event) : option (option mempool) :=
  match called e with
  | rte_eth_rx_queue_setup _ _ _ _ mb_pool => Some mb_pool
  | _ => None
  end.

(** The device information a query answered. *)
Definition dev_info_answer (e : event) : option rte_eth_dev_info :=
  let (c, r) := e in
  match c return resp c -> option rte_eth_dev_info with
  | rte_eth_dev_info_get _ => fun r => Some (snd r)
  | _ => fun _ => None
  end r.

(** The configuration a port is configured with. *)
Definition configure_conf (e : event) : option rte_eth_conf :=
  match called e with
  | rte_eth_dev_configure _ _ _ conf => Some conf
  | _ => None
  end.

(** The configuration a transmit queue is set up with. *)
Definition tx_queue_conf (e : event) : option rte_eth_txconf :=
  match called e with
  | rte_eth_tx_queue_setup _ _ _ _ conf => Some conf
  | _ => None
  end.

(** The transmit offloads requested of a device with capabilities [capa]:
    fast mbuf free (bit 16) when the device has it, nothing else. *)
Definition offloads_for (capa : Z) : Z :=
  if Z.testbit capa 16 then RTE_ETH_TX_OFFLOAD_MBUF_FAST_FREE else 0.

Definition conf_for (info : rte_eth_dev_info) : rte_eth_conf :=
  {| rxmode_max_lro_pkt_size := RTE_ETHER_MAX_LEN;
     txmode_offloads := offloads_for (tx_offload_capa info) |}.

Definition txconf_for (info : rte_eth_dev_info) : rte_eth_txconf :=
  {| txconf_driver := txconf_driver (default_txconf info);
     txconf_offloads := offloads_for (tx_offload_capa info) |}.

(** The external calls of a [port_init] in which no step failed, given the
    configurations used and what the driver answered: ring sizes, socket
    ids, MAC address. *)
Definition configuration_calls (port : Z) (pool : option mempool)
           (conf : rte_eth_conf) (txconf : rte_eth_txconf)
           (rxd txd rx_socket tx_socket : Z) (addr : list Z) : list call :=
  [rte_eth_dev_is_valid_port port;
   rte_eth_dev_info_get port;
   rte_eth_dev_configure port 1 1 conf;
   rte_eth_dev_adjust_nb_rx_tx_desc port 1024 1024;
   rte_eth_dev_socket_id port;
   rte_eth_rx_queue_setup port 0 rxd rx_socket pool;
   rte_eth_dev_socket_id port;
   rte_eth_tx_queue_setup port 0 txd tx_socket txconf;
   rte_eth_dev_start port;
   rte_eth_macaddr_get port;
   printf "Port %u MAC: %02x:%02x:%02x:%02x:%02x:%02x\n" (port :: addr);
   rte_eth_promiscuous_enable port].

(** The offload configuration in a trace of [port_init]: whenever the port
    is configured, and whenever a transmit queue is set up, it is with the
    configuration for the device information that was answered. *)
Definition offloads_follow_device (tr : list event) : Prop :=
  (observe configure_conf tr = []
   \/ exists info,
       observe dev_info_answer tr = [info]
       /\ observe configure_conf tr = [conf_for info])
  /\ (observe tx_queue_conf tr = []
      \/ exists info,
          observe dev_info_answer tr = [info]
          /\ observe tx_queue_conf tr = [txconf_for info]).

(** The arguments [dpdk_init] starts the runtime with (lines 125-132). *)
Definition init_argv (cores : string) : list string :=
  ["dpdk_capture"; "-l"; substring 0 63 cores; "--"].

(** The number of ports the runtime answered. *)
Definition avail_ports (e : event) : option Z :=
  let (c, r) := e in
  match c return resp c -> option Z with
  | rte_eth_dev_count_avail => fun r => Some r
  | _ => fun _ => None
  end r.

Definition is_eal_cleanup (c : call) : bool :=
  match c with
  | rte_eal_cleanup => true
  | _ => false
  end.

Definition is_signal (c : call) : bool :=
  match c with
  | signal _ => true
  | _ => false
  end.

(** The external calls of a [dpdk_init] that returned [ret], given the
    number of ports and the socket id the runtime answered and the calls
    [port_calls] made by [port_init]. *)
Definition init_calls (port : Z) (cores : string) (ret nb_ports socket : Z)
           (port_calls : list call) : list call :=
  rte_eal_init (init_argv cores)
  :: (if ret =? -1 then
        [printf "Error with EAL initialization\n" []]
      else
        rte_eth_dev_count_avail
        :: (if ret =? -2 then
              [printf "Error: no Ethernet ports available\n" [];
               rte_eal_cleanup]
            else if ret =? -3 then
              [printf "Error: port %d not available (only %u ports)\n"
                      [port; nb_ports];
               rte_eal_cleanup]
            else
              rte_socket_id
              :: rte_pktmbuf_pool_create "MBUF_POOL" 8192 250 0
                                         RTE_MBUF_DEFAULT_BUF_SIZE socket
              :: (if ret =? -4 then
                    [printf "Error: cannot create mbuf pool\n" [];
                     rte_eal_cleanup]
                  else
                    port_calls
                    ++ (if ret =? -5 then
                          [printf "Error: cannot init port %d\n" [port];
                           rte_eal_cleanup]
                        else
                          [signal SIGINT; signal SIGTERM;
                           printf "DPDK initialized successfully on port %d\n"
                                  [port]])))).

(** How the value [dpdk_init] returned relates to the number of ports
    [nb_ports] the runtime answered and to the session [g'] it left. *)
Definition init_stage (port : Z) (ret nb_ports : Z) (g' : globals)
           (tr : list event) : Prop :=
  ret = -1
  \/ (observe avail_ports tr = [nb_ports]
      /\ ((ret = -2 /\ nb_ports = 0)
          \/ (ret = -3 /\ nb_ports <> 0 /\ nb_ports <= u32 port)
          \/ ((ret = -4 \/ ret = -5 \/ ret = 0)
              /\ nb_ports <> 0 /\ u32 port < nb_ports
              /\ g_port_id g' = port))).

(** * Properties *)

(** ** C integer conversions *)

Lemma u16_small (z : Z) : 0 <= z < 2 ^ 16 -> u16 z = z.
Proof. intros H. unfold u16. apply Z.mod_small. exact H. Qed.

Lemma u32_small (z : Z) : 0 <= z < 2 ^ 32 -> u32 z = z.
Proof. intros H. unfold u32. apply Z.mod_small. exact H. Qed.

(** ** Runs *)

Section Runs.

Context {W : Type} (h : handler W).

Lemma run_call {A : Type} (c : call) (k : resp c -> prog A) (w : W) :
  run h (Call c k) w =
  (result (run h (k (fst (h c w))) (snd (h c w))),
   snd (fst (run h (k (fst (h c w))) (snd (h c w)))),
   existT resp c (fst (h c w)) :: trace (run h (k (fst (h c w))) (snd (h c w)))).
Proof.
  simpl. destruct (h c w) as [r w1]. simpl.
  destruct (run h (k r) w1) as [[o w2] tr]. reflexivity.
Qed.

Lemma run_bind {A B : Type} (p : prog A) (f : A -> prog B) (w : W) :
  run h (bind p f) w =
  match run h p w with
  | (Done a, w1, tr1) =>
      let '(o, w2, tr2) := run h (f a) w1 in (o, w2, tr1 ++ tr2)
  | (Undefined u, w1, tr1) => (Undefined u, w1, tr1)
  end.
Proof.
  revert w. induction p as [a | u | c k IH]; intros w; simpl.
  - destruct (run h (f a) w) as [[o w2] tr2]. reflexivity.
  - reflexivity.
  - destruct (h c w) as [r w1]. rewrite IH.
    destruct (run h (k r) w1) as [[[a | u] w2] tr1].
    + destruct (run h (f a) w2) as [[o w3] tr2]. reflexivity.
    + reflexivity.
Qed.

Lemma wp_run {A : Type} (p : prog A) :
  forall w Q,
    wp h p w Q <->
    Q (result (run h p w)) (snd (fst (run h p w))) (trace (run h p w)).
Proof.
  induction p as [a | u | c k IH]; intros w Q.
  - reflexivity.
  - reflexivity.
  - rewrite run_call. cbn [wp]. rewrite IH. reflexivity.
Qed.

Lemma wp_weaken {A : Type} (p : prog A) :
  forall w (Q Q' : outcome A -> W -> list event -> Prop),
    (forall o w' tr, Q o w' tr -> Q' o w' tr) ->
    wp h p w Q -> wp h p w Q'.
Proof.
  induction p as [a | u | c k IH]; intros w Q Q' HQ; cbn [wp].
  - apply HQ.
  - apply HQ.
  - apply IH. intros o w' tr. apply HQ.
Qed.

Lemma wp_bind {A B : Type} (p : prog A) (f : A -> prog B) :
  forall w (Q : outcome B -> W -> list event -> Prop),
    wp h p w (fun o w1 tr1 =>
                match o with
                | Done a => wp h (f a) w1 (fun o' w2 tr2 => Q o' w2 (tr1 ++ tr2))
                | Undefined u => Q (Undefined u) w1 tr1
                end) ->
    wp h (bind p f) w Q.
Proof.
  induction p as [a | u | c k IH]; intros w Q; cbn [wp bind].
  - intros H. exact H.
  - intros H. exact H.
  - intros H. apply IH. revert H. apply wp_weaken.
    intros [a | u] w' tr; [| intros H; exact H].
    apply wp_weaken. intros o w2 tr2 H. exact H.
Qed.

End Runs.

Lemma observe_app {A : Type} (f : event -> option A) (tr1 tr2 : list event) :
  observe f (tr1 ++ tr2) = observe f tr1 ++ observe f tr2.
Proof. unfold observe. apply flat_map_app. Qed.

(** Steps through a run: answers of the driver are named, tests of the
    code are split. *)
Ltac wp_step h :=
  cbn [wp bind for_queues extcall fst snd];
  match goal with
  | |- context [h ?c ?w] => destruct (h c w) as [? ?] eqn:?
  | |- wp h (if ?b then _ else _) _ _ => destruct b eqn:?
  | |- wp h (bind (if ?b then _ else _) _) _ _ => destruct b eqn:?
  | |- wp h (bind (match (if ?b then _ else _) with _ => _ end) _) _ _ =>
      destruct b eqn:?
  | |- wp h (match ?x with _ => _ end) _ _ => destruct x eqn:?
  | |- wp h (bind (match ?x with _ => _ end) _) _ _ => destruct x eqn:?
  | |- wp h ?p _ _ =>
      match p with
      | context [bind (if ?b then _ else _) _] => destruct b eqn:?
      end
  end.

(** Rewrites the goal with the outcomes of the tests taken on the path. *)
Ltac use_tests :=
  repeat match goal with
         | H : ?b = true |- context [?b] => rewrite H
         | H : ?b = false |- context [?b] => rewrite H
         end.

(** Turns the outcomes of the tests taken on the path into (in)equalities. *)
Ltac test_facts :=
  repeat match goal with
         | H : negb _ = true |- _ => apply negb_true_iff in H
         | H : negb _ = false |- _ => apply negb_false_iff in H
         | H : (_ =? _) = true |- _ => apply Z.eqb_eq in H
         | H : (_ =? _) = false |- _ => apply Z.eqb_neq in H
         | H : (_ <? _) = true |- _ => apply Z.ltb_lt in H
         | H : (_ <? _) = false |- _ => apply Z.ltb_ge in H
         | H : (_ >=? _) = true |- _ => apply Z.geb_le in H
         | H : (_ >=? _) = false |- _ => rewrite Z.geb_leb in H
         | H : (_ <=? _) = true |- _ => apply Z.leb_le in H
         | H : (_ <=? _) = false |- _ => apply Z.leb_gt in H
         end.

(** ** The two loops of [dpdk_capture_packets] *)

Lemma store_at_here (pre : list packet) (a : packet) (room : list packet)
      (p : packet) :
  store_at (pre ++ a :: room) (List.length pre) p = Some (pre ++ p :: room).
Proof.
  induction pre as [| x pre IH]; simpl.
  - reflexivity.
  - rewrite IH. reflexivity.
Qed.

Lemma store_at_full (pre : list packet) (p : packet) :
  store_at pre (List.length pre) p = None.
Proof.
  induction pre as [| x pre IH]; simpl.
  - reflexivity.
  - rewrite IH. reflexivity.
Qed.

Lemma copy_fault_none (rest : list rte_mbuf) :
  forall i room,
    copy_fault i rest room = None <->
    (rest = [] \/ Z.of_nat (i + List.length rest) <= MAX_PKT_BURST)
    /\ (List.length rest <= List.length room)%nat.
Proof.
  unfold MAX_PKT_BURST.
  induction rest as [| m rest IH]; intros i room; simpl.
  - split; [intros _; split; [left; reflexivity | lia] | reflexivity].
  - unfold MAX_PKT_BURST. destruct (32 <=? Z.of_nat i) eqn:E.
    + split; [discriminate |].
      intros [[H | H] _]; [discriminate | lia].
    + destruct room as [| a room]; simpl.
      * split; [discriminate | intros [_ H]; lia].
      * rewrite IH. destruct rest as [| m' rest]; simpl in *.
        -- split; intros _; (split; [| lia]).
           ++ right. lia.
           ++ left. reflexivity.
        -- split; intros [[H | H] H']; try discriminate;
             (split; [right; lia | lia]).
Qed.

Lemma copy_fault_bufs (rest : list rte_mbuf) :
  forall i room,
    Z.of_nat (i + List.length rest) <= MAX_PKT_BURST ->
    copy_fault i rest room <> Some BufsOutOfBounds.
Proof.
  unfold MAX_PKT_BURST.
  induction rest as [| m rest IH]; intros i room H; simpl in *.
  - discriminate.
  - unfold MAX_PKT_BURST. destruct (32 <=? Z.of_nat i) eqn:E; [lia |].
    destruct room as [| a room]; [discriminate |].
    apply IH. lia.
Qed.

Lemma copy_out_loop (g : globals) (ts : Z) (rest : list rte_mbuf) :
  forall pre_b pre_p room,
    List.length pre_p = List.length pre_b ->
    for_loop (List.length rest) (Z.of_nat (List.length pre_b))
             (copy_out (pre_b ++ rest) g ts) (pre_p ++ room)
    = match copy_fault (List.length pre_b) rest room with
      | None => Ret (pre_p ++ map (fill_packet g ts) rest
                           ++ skipn (List.length rest) room)
      | Some u => Trap u
      end.
Proof.
  induction rest as [| m rest IH]; intros pre_b pre_p room Hlen.
  - reflexivity.
  - cbn [List.length for_loop copy_fault].
    unfold copy_out at 1. unfold bufs_read.
    replace (0 <=? Z.of_nat (List.length pre_b)) with true
      by (symmetry; apply Z.leb_le; lia).
    rewrite Z.ltb_antisym. cbn [andb].
    destruct (MAX_PKT_BURST <=? Z.of_nat (List.length pre_b)); cbn [negb].
    + reflexivity.
    + rewrite Nat2Z.id, nth_error_app2, Nat.sub_diag by lia.
      cbn [nth_error bind]. unfold packets_write.
      rewrite Nat2Z.id, <- Hlen.
      destruct room as [| a room].
      * rewrite app_nil_r, store_at_full. reflexivity.
      * rewrite store_at_here. cbn [bind].
        specialize (IH (pre_b ++ [m]) (pre_p ++ [fill_packet g ts m]) room).
        rewrite !length_app in IH. cbn [List.length] in IH.
        rewrite <- !app_assoc in IH. cbn [app] in IH.
        replace (Z.of_nat (List.length pre_p) + 1)
          with (Z.of_nat (List.length pre_b + 1)) by lia.
        rewrite IH by lia.
        replace (List.length pre_b + 1)%nat with (S (List.length pre_p))
          by lia.
        reflexivity.
Qed.

Section Capture.

Context {W : Type} (h : handler W).

Lemma release_loop (rest : list rte_mbuf) :
  forall pre_b w,
    Z.of_nat (List.length pre_b + List.length rest) <= MAX_PKT_BURST ->
    run h (for_loop (List.length rest) (Z.of_nat (List.length pre_b))
                    (release (pre_b ++ rest)) tt) w
    = (Done tt, after_free h rest w, map free_event rest).
Proof.
  induction rest as [| m rest IH]; intros pre_b w Hlen.
  - reflexivity.
  - cbn [List.length for_loop]. unfold release at 1. unfold bufs_read.
    cbn [List.length] in Hlen.
    replace (0 <=? Z.of_nat (List.length pre_b)) with true
      by (symmetry; apply Z.leb_le; lia).
    replace (Z.of_nat (List.length pre_b) <? MAX_PKT_BURST) with true
      by (symmetry; apply Z.ltb_lt; lia).
    cbn [andb].
    rewrite Nat2Z.id, nth_error_app2, Nat.sub_diag by lia.
    cbn [nth_error bind extcall]. rewrite run_call. cbn [bind].
    specialize (IH (pre_b ++ [m])).
    rewrite length_app in IH. cbn [List.length] in IH.
    rewrite <- app_assoc in IH. cbn [app] in IH.
    replace (Z.of_nat (List.length pre_b) + 1)
      with (Z.of_nat (List.length pre_b + 1)) by lia.
    destruct (fst (h (rte_pktmbuf_free m) w)).
    rewrite IH by lia. reflexivity.
Qed.

(** What one call of [dpdk_capture_packets] with a non-null array and a
    positive [max_packets] does, in terms of the driver's answers. *)
Lemma capture_run (arr : list packet) (max_packets : Z) (g : globals)
      (w : W) :
  0 < max_packets ->
  run h (dpdk_capture_packets (Some arr) max_packets g) w =
  let bufs := burst h max_packets g w in
  let ts := u32 (cycles_read h max_packets g w / hz_read h max_packets g w) in
  match bufs with
  | [] => (Done (0, Some arr, g), after_burst h max_packets g w,
           [existT resp (burst_call max_packets g) bufs])
  | _ :: _ =>
      if hz_read h max_packets g w =? 0 then
        (Undefined DivisionByZero, after_hz h max_packets g w,
         clock_events h max_packets g w)
      else
        match copy_fault 0 bufs arr with
        | Some u =>
            (Undefined u, after_hz h max_packets g w,
             clock_events h max_packets g w)
        | None =>
            (Done (Z.of_nat (List.length bufs),
                   Some (map (fill_packet g ts) bufs
                           ++ skipn (List.length bufs) arr), g),
             after_free h bufs (after_hz h max_packets g w),
             clock_events h max_packets g w ++ map free_event bufs)
        end
  end.
Proof.
  intros Hmax. unfold dpdk_capture_packets.
  replace (max_packets <=? 0) with false by (symmetry; apply Z.leb_gt; lia).
  unfold extcall. cbn [bind]. rewrite run_call.
  unfold clock_events, hz_read, after_hz, cycles_read, after_cycles.
  fold (burst_call max_packets g).
  fold (burst h max_packets g w). fold (after_burst h max_packets g w).
  destruct (burst h max_packets g w) as [| m bufs] eqn:Hb.
  - reflexivity.
  - set (l := m :: bufs) in *.
    replace (Z.of_nat (List.length l) =? 0) with false
      by (symmetry; apply Z.eqb_neq; subst l; simpl; lia).
    rewrite !run_call.
    set (w1 := after_burst h max_packets g w).
    set (cy := fst (h rte_get_tsc_cycles w1)).
    set (w2 := snd (h rte_get_tsc_cycles w1)).
    set (hz := fst (h rte_get_tsc_hz w2)).
    set (w3 := snd (h rte_get_tsc_hz w2)).
    destruct (hz =? 0) eqn:Hhz.
    + reflexivity.
    + rewrite Nat2Z.id.
      pose proof (copy_out_loop g (u32 (cy / hz)) l [] [] arr eq_refl)
        as Hcopy.
      cbn [app List.length Z.of_nat] in Hcopy. rewrite Hcopy.
      destruct (copy_fault 0 l arr) as [u |] eqn:Hf.
      * reflexivity.
      * apply copy_fault_none in Hf. destruct Hf as [[Hf | Hf] Hroom].
        { subst l. discriminate. }
        cbn [bind]. rewrite run_bind.
        pose proof (release_loop l [] w3) as Hrel.
        cbn [app List.length Z.of_nat] in Hrel. rewrite Hrel by exact Hf.
        cbn [run]. unfold result, trace. cbn [fst snd app].
        rewrite app_nil_r. reflexivity.
Qed.

End Capture.

(** ** Facts shared by the capture theorems *)

Lemma capture_count_min (max_packets : Z) (g : globals) :
  capture_count max_packets g = Z.min max_packets (g_batch_size g).
Proof.
  unfold capture_count. destruct (max_packets <? g_batch_size g) eqn:E.
  - apply Z.ltb_lt in E. lia.
  - apply Z.ltb_ge in E. lia.
Qed.

Lemma capture_count_u16 (max_packets : Z) (g : globals) :
  0 < max_packets ->
  1 <= g_batch_size g <= MAX_PKT_BURST ->
  u16 (capture_count max_packets g) = Z.min max_packets (g_batch_size g).
Proof.
  unfold MAX_PKT_BURST. intros Hmax Hbs. rewrite capture_count_min.
  apply u16_small. change (2 ^ 16) with 65536. lia.
Qed.

Lemma drive_rx_burst_bounded : rx_burst_bounded SimNic.drive.
Proof.
  intros p q n w Hn. cbn [SimNic.drive SimNic.pop fst].
  rewrite length_firstn. lia.
Qed.

(** ** Argument checks of [dpdk_capture_packets] *)

Lemma capture_nonpositive (packets : option (list packet)) (max_packets : Z)
      (g : globals) :
  max_packets <= 0 ->
  dpdk_capture_packets packets max_packets g = Ret (-1, packets, g).
Proof.
  intros Hmax. destruct packets as [arr |]; [| reflexivity].
  unfold dpdk_capture_packets.
  replace (max_packets <=? 0) with true by (symmetry; apply Z.leb_le; lia).
  reflexivity.
Qed.

(** C9: with a null output array the capture is a plain [return -1]: for
    every [max_packets], session and driver it issues no external call,
    leaves the driver state alone and writes nothing; the value is the one
    a non-positive [max_packets] is answered with. *)
Theorem capture_null_array :
  forall (max_packets : Z) (g : globals),
    dpdk_capture_packets None max_packets g = Ret (-1, None, g)
    /\ (forall (W : Type) (h : handler W) (w : W),
          run h (dpdk_capture_packets None max_packets g) w
          = (Done (-1, None, g), w, []))
    /\ (forall (arr : list packet) (n : Z),
          n <= 0 ->
          dpdk_capture_packets (Some arr) n g = Ret (-1, Some arr, g)).
Proof.
  intros max_packets g. split; [reflexivity | split].
  - intros W h w. reflexivity.
  - intros arr n Hn. apply capture_nonpositive. exact Hn.
Qed.

Lemma capture_null_array_witness :
  dpdk_capture_packets None 4 initial_globals = Ret (-1, None, initial_globals)
  /\ run SimNic.drive (dpdk_capture_packets None 4 initial_globals) SimNic.busy
     = (Done (-1, None, initial_globals), SimNic.busy, [])
  /\ dpdk_capture_packets (Some [SimNic.blank]) 0 initial_globals
     = Ret (-1, Some [SimNic.blank], initial_globals).
Proof.
  destruct (capture_null_array 4 initial_globals) as [H1 [H2 H3]].
  split; [exact H1 | split].
  - exact (H2 SimNic.nic SimNic.drive SimNic.busy).
  - apply (H3 [SimNic.blank] 0). lia.
Defined.

(** C8: when the burst receive stores no frame, a capture with a non-null
    array and a positive [max_packets] returns 0, leaves the array and the
    session as they were, and has issued that one call only. *)
Theorem capture_empty_queue :
  forall (W : Type) (h : handler W) (w : W) (arr : list packet)
         (max_packets : Z) (g : globals),
    0 < max_packets ->
    burst h max_packets g w = [] ->
    run h (dpdk_capture_packets (Some arr) max_packets g) w
    = (Done (0, Some arr, g), after_burst h max_packets g w,
       [existT resp (burst_call max_packets g) []]).
Proof.
  intros W h w arr max_packets g Hmax Hempty.
  rewrite capture_run by exact Hmax. cbv zeta. rewrite Hempty. reflexivity.
Qed.

Lemma capture_empty_queue_witness :
  0 < 16
  /\ burst SimNic.drive 16 initial_globals SimNic.idle = []
  /\ run SimNic.drive
         (dpdk_capture_packets (Some [SimNic.blank]) 16 initial_globals)
         SimNic.idle
     = (Done (0, Some [SimNic.blank], initial_globals), SimNic.idle,
        [existT resp (rte_eth_rx_burst 0 0 16) []]).
Proof.
  split; [lia | split; [reflexivity |]].
  apply (capture_empty_queue SimNic.nic SimNic.drive SimNic.idle
                             [SimNic.blank] 16 initial_globals).
  - lia.
  - reflexivity.
Defined.

(** ** The batch bound *)

Lemma burst_at_most_min {W : Type} (h : handler W) (w : W)
      (max_packets : Z) (g : globals) :
  rx_burst_bounded h ->
  1 <= g_batch_size g <= MAX_PKT_BURST ->
  0 < max_packets ->
  Z.of_nat (List.length (burst h max_packets g w))
  <= Z.min max_packets (g_batch_size g).
Proof.
  intros Hrx Hbs Hmax. rewrite <- capture_count_u16 by assumption.
  unfold burst, burst_call. apply Hrx.
  rewrite capture_count_u16 by assumption. lia.
Qed.

(** C1: in a session whose batch size lies in [1, 32], against a driver
    whose burst receive honours its bound, a capture with positive
    [max_packets] that succeeds (returns a non-negative value) returns at
    most [min max_packets batch_size], and the value is the number of frames
    the burst receive stored.  Such a capture does succeed when the array is
    non-null and holds [min max_packets batch_size] slots and the counter
    frequency read is not zero. *)
Theorem capture_at_most_min :
  forall (W : Type) (h : handler W) (w : W)
         (packets : option (list packet)) (max_packets : Z) (g : globals),
    rx_burst_bounded h ->
    1 <= g_batch_size g <= MAX_PKT_BURST ->
    0 < max_packets ->
    (forall ret packets' g',
        result (run h (dpdk_capture_packets packets max_packets g) w)
        = Done (ret, packets', g') ->
        0 <= ret ->
        ret <= Z.min max_packets (g_batch_size g)
        /\ ret = Z.of_nat (List.length (burst h max_packets g w)))
    /\ (forall arr,
          packets = Some arr ->
          hz_read h max_packets g w <> 0 ->
          Z.min max_packets (g_batch_size g) <= Z.of_nat (List.length arr) ->
          exists ret arr',
            result (run h (dpdk_capture_packets packets max_packets g) w)
            = Done (ret, Some arr', g)
            /\ 0 <= ret <= Z.min max_packets (g_batch_size g)).
Proof.
  intros W h w packets max_packets g Hrx Hbs Hmax.
  pose proof (burst_at_most_min h w max_packets g Hrx Hbs Hmax) as Hlen.
  split.
  - intros ret packets' g' Hrun Hret. destruct packets as [arr |].
    + rewrite capture_run in Hrun by exact Hmax. cbv zeta in Hrun.
      destruct (burst h max_packets g w) as [| m bufs].
      * injection Hrun as <- _ _. simpl. lia.
      * destruct (hz_read h max_packets g w =? 0); [discriminate |].
        destruct (copy_fault 0 (m :: bufs) arr); [discriminate |].
        injection Hrun as <- _ _. split; [exact Hlen | reflexivity].
    + injection Hrun as <- _ _. lia.
  - intros arr -> Hhz Hroom.
    rewrite capture_run by exact Hmax. cbv zeta.
    destruct (burst h max_packets g w) as [| m bufs] eqn:Hb.
    + exists 0, arr. split; [reflexivity | lia].
    + apply Z.eqb_neq in Hhz. rewrite Hhz.
      assert (Hok : copy_fault 0 (m :: bufs) arr = None).
      { apply copy_fault_none. unfold MAX_PKT_BURST in *.
        cbn [List.length Nat.add] in *. split; [right |]; lia. }
      rewrite Hok. eexists _, _. split; [reflexivity |]. lia.
Qed.

Lemma capture_at_most_min_witness :
  rx_burst_bounded SimNic.drive
  /\ 1 <= g_batch_size initial_globals <= MAX_PKT_BURST
  /\ 0 < 2
  /\ (exists ret arr',
         result (run SimNic.drive
                     (dpdk_capture_packets
                        (Some [SimNic.blank; SimNic.blank]) 2 initial_globals)
                     SimNic.busy)
         = Done (ret, Some arr', initial_globals)
         /\ 0 <= ret <= Z.min 2 (g_batch_size initial_globals)).
Proof.
  assert (Hbs : 1 <= g_batch_size initial_globals <= MAX_PKT_BURST)
    by (vm_compute; split; discriminate).
  assert (Hmax : 0 < 2) by lia.
  split; [exact drive_rx_burst_bounded | split; [exact Hbs | split; [lia |]]].
  destruct (capture_at_most_min SimNic.nic SimNic.drive SimNic.busy
              (Some [SimNic.blank; SimNic.blank]) 2 initial_globals
              drive_rx_burst_bounded Hbs Hmax) as [_ Htotal].
  apply (Htotal [SimNic.blank; SimNic.blank] eq_refl).
  - vm_compute. discriminate.
  - vm_compute. discriminate.
Defined.

(** ** No configured check in [dpdk_capture_packets] *)

Lemma capture_not_rejected {W : Type} (h : handler W) (w : W)
      (arr : list packet) (max_packets : Z) (g : globals) :
  0 < max_packets ->
  ~ rejected (result (run h (dpdk_capture_packets (Some arr) max_packets g) w)).
Proof.
  intros Hmax (ret & x & g' & Hrun & Hneg).
  rewrite capture_run in Hrun by exact Hmax. cbv zeta in Hrun.
  destruct (burst h max_packets g w) as [| m bufs].
  - injection Hrun as <- _ _. lia.
  - destruct (hz_read h max_packets g w =? 0); [discriminate |].
    destruct (copy_fault 0 (m :: bufs) arr); [discriminate |].
    injection Hrun as <- _ _. lia.
Qed.

Lemma capture_receives_first {W : Type} (h : handler W) (w : W)
      (arr : list packet) (max_packets : Z) (g : globals) :
  0 < max_packets ->
  exists calls,
    map called (trace (run h (dpdk_capture_packets (Some arr) max_packets g) w))
    = burst_call max_packets g :: calls.
Proof.
  intros Hmax. rewrite capture_run by exact Hmax. cbv zeta.
  destruct (burst h max_packets g w) as [| m bufs].
  - exists []. reflexivity.
  - destruct (hz_read h max_packets g w =? 0).
    + eexists. reflexivity.
    + destruct (copy_fault 0 (m :: bufs) arr); eexists; reflexivity.
Qed.

(** C2, as the claim states it, fails: on a session that was never
    initialised, a capture with a one-slot array and [max_packets = 1] is not
    rejected; it performs the burst receive on port 0 and returns 1. *)
Lemma capture_before_init_receives :
  let r := run SimNic.drive
               (dpdk_capture_packets (Some [SimNic.blank]) 1 initial_globals)
               SimNic.busy in
  result r
  = Done (1, Some [ {| Packet.data := 4096; Packet.length := 64;
                       Packet.port := 0; Packet.timestamp := 3 |} ],
          initial_globals)
  /\ ~ rejected (result r)
  /\ receives (trace r).
Proof.
  cbv zeta. split; [vm_compute; reflexivity | split].
  - apply capture_not_rejected. lia.
  - exists 0, 0, 1. vm_compute. left. reflexivity.
Qed.

(** C2, amended: the capture returns -1 without any external call whenever
    [max_packets <= 0], for any session state and any array pointer.  No
    other check guards the hardware receive: with a non-null array and a
    positive [max_packets] the capture is never rejected and its first
    external call is the burst receive, in whatever state the session is;
    on a session that was never initialised that is a receive on port 0 of
    [min max_packets 32] frames. *)
Theorem capture_argument_check :
  (forall (packets : option (list packet)) (max_packets : Z) (g : globals),
      max_packets <= 0 ->
      dpdk_capture_packets packets max_packets g = Ret (-1, packets, g))
  /\ (forall (W : Type) (h : handler W) (w : W) (arr : list packet)
             (max_packets : Z) (g : globals),
         0 < max_packets ->
         let r := run h (dpdk_capture_packets (Some arr) max_packets g) w in
         ~ rejected (result r)
         /\ exists calls,
             map called (trace r) = burst_call max_packets g :: calls)
  /\ (forall max_packets : Z,
         0 < max_packets ->
         burst_call max_packets initial_globals
         = rte_eth_rx_burst 0 0 (Z.min max_packets 32)).
Proof.
  split; [| split].
  - intros packets max_packets g Hmax. apply capture_nonpositive. exact Hmax.
  - intros W h w arr max_packets g Hmax. cbv zeta. split.
    + apply capture_not_rejected. exact Hmax.
    + apply capture_receives_first. exact Hmax.
  - intros max_packets Hmax. unfold burst_call.
    rewrite capture_count_u16;
      [reflexivity | exact Hmax | vm_compute; split; discriminate].
Qed.

Lemma capture_argument_check_witness :
  dpdk_capture_packets (Some [SimNic.blank]) (-3) initial_globals
  = Ret (-1, Some [SimNic.blank], initial_globals)
  /\ ~ rejected
       (result (run SimNic.drive
                    (dpdk_capture_packets (Some [SimNic.blank]) 40
                                          initial_globals) SimNic.idle))
  /\ burst_call 40 initial_globals = rte_eth_rx_burst 0 0 (Z.min 40 32).
Proof.
  destruct capture_argument_check as [Hneg [Hpos Hcall]].
  split; [| split].
  - apply (Hneg (Some [SimNic.blank]) (-3) initial_globals). lia.
  - apply (Hpos SimNic.nic SimNic.drive SimNic.idle [SimNic.blank] 40
                initial_globals). lia.
  - apply (Hcall 40). lia.
Defined.

(** ** The timestamp of a batch *)

Lemma firstn_filled (g : globals) (ts : Z) (bufs : list rte_mbuf)
      (arr : list packet) :
  firstn (Z.to_nat (Z.of_nat (List.length bufs)))
         (map (fill_packet g ts) bufs ++ skipn (List.length bufs) arr)
  = map (fill_packet g ts) bufs.
Proof.
  rewrite Nat2Z.id, firstn_app, length_map, Nat.sub_diag.
  cbn [firstn]. rewrite app_nil_r. apply firstn_all2.
  rewrite length_map. lia.
Qed.

(** C7, as the claim states it, fails: the quotient is stored in a 32-bit
    field.  With a counter at [2^32 * 2000000000] cycles and a frequency of
    [2000000000] Hz the whole seconds are [2^32], the timestamp stored is
    0. *)
Lemma capture_timestamp_wraps :
  let r := run SimNic.drive
               (dpdk_capture_packets (Some [SimNic.blank]) 1 initial_globals)
               SimNic.late in
  result r
  = Done (1, Some [ {| Packet.data := 4096; Packet.length := 64;
                       Packet.port := 0; Packet.timestamp := 0 |} ],
          initial_globals)
  /\ SimNic.tsc SimNic.late / SimNic.tsc_hz SimNic.late = 4294967296
  /\ 0 <> SimNic.tsc SimNic.late / SimNic.tsc_hz SimNic.late.
Proof.
  cbv zeta. split; [vm_compute; reflexivity | split].
  - vm_compute. reflexivity.
  - vm_compute. discriminate.
Qed.

(** C7, amended: when a capture returns [ret > 0], the cycle counter and its
    frequency were each read exactly once, right after the burst receive,
    the frequency read was not zero, and every one of the [ret] packets
    returned carries the same timestamp: the counter divided by the
    frequency, rounded down to whole seconds, and then reduced modulo 2^32
    (the field is a [uint32_t]).  It is the number of whole seconds itself
    whenever that number is below 2^32.  The capture does return, with one
    such packet per frame received, when the frames received are at most 32
    and fit the array and the frequency read is not zero. *)
Theorem capture_shared_timestamp :
  forall (W : Type) (h : handler W) (w : W)
         (packets : option (list packet)) (max_packets : Z) (g : globals),
    let r := run h (dpdk_capture_packets packets max_packets g) w in
    let cycles := cycles_read h max_packets g w in
    let hz := hz_read h max_packets g w in
    let bufs := burst h max_packets g w in
    (forall ret arr' g',
        result r = Done (ret, Some arr', g') ->
        0 < ret ->
        Forall (fun p => Packet.timestamp p = u32 (cycles / hz))
               (firstn (Z.to_nat ret) arr')
        /\ hz <> 0
        /\ map called (trace r)
           = [burst_call max_packets g; rte_get_tsc_cycles; rte_get_tsc_hz]
               ++ map rte_pktmbuf_free bufs)
    /\ (forall arr,
           packets = Some arr ->
           0 < max_packets ->
           bufs <> [] ->
           hz <> 0 ->
           Z.of_nat (List.length bufs) <= MAX_PKT_BURST ->
           (List.length bufs <= List.length arr)%nat ->
           result r
           = Done (Z.of_nat (List.length bufs),
                   Some (map (fill_packet g (u32 (cycles / hz))) bufs
                           ++ skipn (List.length bufs) arr),
                   g))
    /\ (0 <= cycles / hz < 2 ^ 32 -> u32 (cycles / hz) = cycles / hz).
Proof.
  intros W h w packets max_packets g. cbv zeta.
  split; [| split; [| apply u32_small]].
  - intros ret arr' g' Hrun Hret.
    destruct packets as [arr |];
      [| injection Hrun as <- _ _; lia].
    destruct (Z.leb_spec max_packets 0) as [Hmax | Hmax].
    { rewrite (capture_nonpositive (Some arr) max_packets g Hmax) in Hrun.
      injection Hrun as <- _ _. lia. }
    rewrite capture_run in Hrun |- * by exact Hmax. cbv zeta in Hrun |- *.
    destruct (burst h max_packets g w) as [| m bufs].
    { injection Hrun as <- _ _. lia. }
    cbv beta iota in Hrun |- *. set (l := m :: bufs) in *. clearbody l.
    destruct (hz_read h max_packets g w =? 0) eqn:Hhz; [discriminate |].
    destruct (copy_fault 0 l arr); [discriminate |].
    injection Hrun as <- <- _.
    split; [| split].
    + rewrite firstn_filled. apply Forall_map, Forall_forall.
      intros x _. reflexivity.
    + apply Z.eqb_neq. exact Hhz.
    + unfold trace, clock_events. cbn [snd]. rewrite map_app, map_map.
      reflexivity.
  - intros arr -> Hmax Hbufs Hhz Hslots Hroom.
    rewrite capture_run by exact Hmax. cbv zeta.
    destruct (burst h max_packets g w) as [| m bufs]; [contradiction |].
    cbv beta iota. set (l := m :: bufs) in *. clearbody l.
    apply Z.eqb_neq in Hhz. rewrite Hhz.
    replace (copy_fault 0 l arr) with (@None undefined); [reflexivity |].
    symmetry. apply copy_fault_none. split; [right; exact Hslots | exact Hroom].
Qed.

Lemma capture_shared_timestamp_witness :
  Forall (fun p => Packet.timestamp p = 3)
         (firstn (Z.to_nat 2)
                 [fill_packet initial_globals 3 (SimNic.frame 1);
                  fill_packet initial_globals 3 (SimNic.frame 2)]).
Proof.
  destruct (capture_shared_timestamp
              SimNic.nic SimNic.drive SimNic.busy
              (Some [SimNic.blank; SimNic.blank]) 2 initial_globals)
    as [Hstamp _].
  refine (proj1 (Hstamp 2 _ initial_globals _ _)).
  - vm_compute. reflexivity.
  - lia.
Defined.

(** ** [port_init] *)

Lemma port_init_paths {W : Type} (h : handler W) (w : W) (port : Z)
      (pool : option mempool) :
  wp h (port_init port pool) w
     (fun o _ tr =>
        exists ret,
          o = Done ret
          /\ aborts_at_first_failure ret tr
          /\ single_queue_model ret tr
          /\ observe rx_burst_size tr = []).
Proof.
  unfold port_init. cbv zeta. change (Z.to_nat 1) with 1%nat.
  repeat wp_step h.
  all: cbn [wp bind]; eexists; (split; [reflexivity |]).
  all: unfold single_queue_model, observe.
  all: cbn [flat_map app called projT1 rx_burst_size configured_queues
            rx_queue tx_queue adjusted aborts_at_first_failure step_code
            fst snd].
  all: use_tests; test_facts.
  all: repeat split; try reflexivity; try lia.
  all: try (left; reflexivity); try (right; reflexivity).
  all: try (right; eexists _, _; split; reflexivity).
  all: try (intros ?; lia).
  all: try (repeat constructor).
  intros _. eexists _, _. repeat split; reflexivity.
Qed.

(** C6: [port_init] always returns.  Walking the trace of its external
    calls, the first step that fails by the code's test ends the
    configuration: its code is the value returned (-1 for an invalid port)
    and only logging follows it; when no step fails the value is 0.  The
    port is configured with one receive and one transmit queue; a queue that
    is set up is queue 0, set up once, with the ring size the descriptor
    adjustment, asked about 1024 and 1024, answered; a run that returns 0
    has set up both. *)
Theorem port_init_single_queue :
  forall (W : Type) (h : handler W) (w : W) (port : Z)
         (pool : option mempool),
    let r := run h (port_init port pool) w in
    exists ret,
      result r = Done ret
      /\ aborts_at_first_failure ret (trace r)
      /\ single_queue_model ret (trace r).
Proof.
  intros W h w port pool. cbv zeta.
  pose proof (port_init_paths h w port pool) as H.
  apply wp_run in H. destruct H as (ret & Hret & Habort & Hq & _).
  exists ret. split; [exact Hret | split; assumption].
Qed.

(** On the sample device the port comes up with one queue each way, at the
    512 descriptors the adjustment answered rather than the 1024 asked. *)
Example port_init_sample_run :
  let r := run SimNic.drive (port_init 0 (Some 1)) SimNic.idle in
  result r = Done 0
  /\ observe configured_queues (trace r) = [(1, 1)]
  /\ observe adjusted (trace r) = [(1024, 1024, (512, 512))]
  /\ observe rx_queue (trace r) = [(0, 512)]
  /\ observe tx_queue (trace r) = [(0, 512)].
Proof. vm_compute. repeat split; reflexivity. Qed.

(** When the port does not start, its code comes back and neither the MAC
    address is read nor promiscuous mode enabled. *)
Example port_init_sample_abort :
  let r := run SimNic.drive (port_init 0 (Some 1)) SimNic.stuck in
  result r = Done (-19)
  /\ map called (trace r)
     = [rte_eth_dev_is_valid_port 0;
        rte_eth_dev_info_get 0;
        rte_eth_dev_configure 0 1 1
          {| rxmode_max_lro_pkt_size := 1518; txmode_offloads := 65536 |};
        rte_eth_dev_adjust_nb_rx_tx_desc 0 1024 1024;
        rte_eth_dev_socket_id 0;
        rte_eth_rx_queue_setup 0 0 512 0 (Some 1);
        rte_eth_dev_socket_id 0;
        rte_eth_tx_queue_setup 0 0 512 0
          {| txconf_driver := 7; txconf_offloads := 65536 |};
        rte_eth_dev_start 0].
Proof. vm_compute. split; reflexivity. Qed.

(** ** [dpdk_init] *)

Lemma dpdk_init_paths {W : Type} (h : handler W) (w : W) (port : Z)
      (cores : string) (batch_size : Z) (g : globals) :
  wp h (dpdk_init port cores batch_size g) w
     (fun o _ tr =>
        exists ret g',
          o = Done (ret, g')
          /\ dpdk_init_post port batch_size g ret g'
          /\ observe rx_burst_size tr = []).
Proof.
  unfold dpdk_init. cbv zeta.
  repeat wp_step h.
  all: match goal with
       | H : mbuf_pool _ = _ |- _ => cbn [mbuf_pool set_mbuf_pool] in H; subst
       | _ => idtac
       end.
  all: lazymatch goal with
       | |- wp _ (bind (port_init _ _) _) _ _ =>
           apply wp_bind; eapply wp_weaken; [| apply port_init_paths];
           intros o w' tr (ret & -> & _ & _ & Hquiet);
           repeat wp_step h;
           cbn [wp bind]; eexists _, _; (split; [reflexivity |]);
           (split; [| unfold observe in *;
                      cbn [flat_map called projT1 rx_burst_size app];
                      rewrite flat_map_app, Hquiet; reflexivity]);
           unfold dpdk_init_post; right; right;
           (split; [lia | eexists; reflexivity])
       | _ =>
           cbn [wp bind]; eexists _, _; (split; [reflexivity |]);
           (split; [| reflexivity]); unfold dpdk_init_post
       end.
  - left. split; [lia | reflexivity].
  - left. split; [lia | reflexivity].
  - left. split; [lia | reflexivity].
  - right. left. split; reflexivity.
Qed.

Lemma clamp_batch_size_range (batch_size : Z) :
  1 <= clamp_batch_size batch_size <= MAX_PKT_BURST.
Proof.
  unfold clamp_batch_size, MAX_PKT_BURST.
  destruct (batch_size >? 0) eqn:E1; destruct (batch_size <=? 32) eqn:E2;
    cbn [andb]; lia.
Qed.

Lemma clamp_batch_size_id (batch_size : Z) :
  1 <= batch_size <= MAX_PKT_BURST ->
  clamp_batch_size batch_size = batch_size.
Proof.
  unfold clamp_batch_size, MAX_PKT_BURST. intros H.
  replace (batch_size >? 0) with true by (symmetry; apply Z.gtb_lt; lia).
  replace (batch_size <=? 32) with true by (symmetry; apply Z.leb_le; lia).
  reflexivity.
Qed.

(** C3: [dpdk_init] always returns one of 0, -1, ..., -5.  When it returns
    0, -4 or -5 (it got past the port checks) the batch size stored in the
    session is the clamped argument, which lies in [1, 32] for every
    argument and is the argument itself when that lies in [1, 32]; when it
    returns -1, -2 or -3 the session is left as it was. *)
Theorem init_clamps_batch_size :
  forall (W : Type) (h : handler W) (w : W) (port : Z) (cores : string)
         (batch_size : Z) (g : globals),
    let r := run h (dpdk_init port cores batch_size g) w in
    exists ret g',
      result r = Done (ret, g')
      /\ (ret = 0 \/ ret = -4 \/ ret = -5 \/ ret = -1 \/ ret = -2 \/ ret = -3)
      /\ (ret = 0 \/ ret = -4 \/ ret = -5 ->
          g_batch_size g' = clamp_batch_size batch_size)
      /\ (ret = -1 \/ ret = -2 \/ ret = -3 -> g' = g)
      /\ 1 <= clamp_batch_size batch_size <= MAX_PKT_BURST
      /\ (1 <= batch_size <= MAX_PKT_BURST ->
          clamp_batch_size batch_size = batch_size).
Proof.
  intros W h w port cores batch_size g. cbv zeta.
  pose proof (dpdk_init_paths h w port cores batch_size g) as H.
  apply wp_run in H. destruct H as (ret & g' & Hrun & Hpost & _).
  exists ret, g'. split; [exact Hrun |].
  split; [| split; [| split; [| split]]].
  - destruct Hpost as [[H _] | [[H _] | [H _]]]; lia.
  - intros Hret.
    destruct Hpost as [[H _] | [[_ ->] | [_ [pool ->]]]];
      [lia | reflexivity | reflexivity].
  - intros Hret.
    destruct Hpost as [[_ H] | [[H _] | [H _]]]; [exact H | lia | lia].
  - apply clamp_batch_size_range.
  - apply clamp_batch_size_id.
Qed.

Lemma init_clamps_batch_size_witness :
  exists g',
    result (run SimNic.drive (dpdk_init 0 "0-1" 16 initial_globals) SimNic.idle)
    = Done (0, g')
    /\ g_batch_size g' = 16
    /\ clamp_batch_size 16 = 16
    /\ clamp_batch_size 0 = 32
    /\ clamp_batch_size 33 = 32.
Proof.
  destruct (init_clamps_batch_size SimNic.nic SimNic.drive SimNic.idle
              0 "0-1" 16 initial_globals)
    as (ret & g' & Hrun & _ & Hstored & _ & _ & Hid).
  assert (Hret : ret = 0) by (vm_compute in Hrun; congruence).
  subst ret. exists g'. split; [exact Hrun |].
  split; [| split; [| split; reflexivity]].
  - rewrite Hstored by (left; reflexivity).
    apply Hid. unfold MAX_PKT_BURST. lia.
  - apply Hid. unfold MAX_PKT_BURST. lia.
Defined.

(** ** The batch size as an invariant of the session *)

Lemma observe_free_events (bufs : list rte_mbuf) :
  observe rx_burst_size (map free_event bufs) = [].
Proof.
  induction bufs as [| m bufs IH]; [reflexivity | exact IH].
Qed.

Lemma capture_safe {W : Type} (h : handler W) (w : W)
      (packets : option (list packet)) (max_packets : Z) (g : globals) :
  rx_burst_bounded h ->
  batch_size_ok g ->
  let r := run h (dpdk_capture_packets packets max_packets g) w in
  (forall ret packets' g', result r = Done (ret, packets', g') -> g' = g)
  /\ Forall (fun n => 1 <= n <= MAX_PKT_BURST)
            (observe rx_burst_size (trace r))
  /\ result r <> Undefined BufsOutOfBounds.
Proof.
  intros Hrx Hbs. cbv zeta.
  destruct (Z.leb_spec max_packets 0) as [Hmax | Hmax].
  { rewrite capture_nonpositive by exact Hmax. cbn.
    split; [| split; [constructor | discriminate]].
    intros ret packets' g' H. injection H as _ _ <-. reflexivity. }
  destruct packets as [arr |].
  2: { cbn. split; [| split; [constructor | discriminate]].
       intros ret packets' g' H. injection H as _ _ <-. reflexivity. }
  pose proof (burst_at_most_min h w max_packets g Hrx Hbs Hmax) as Hlen.
  assert (Hsize : Forall (fun n => 1 <= n <= MAX_PKT_BURST)
                         [u16 (capture_count max_packets g)]).
  { constructor; [| constructor].
    rewrite capture_count_u16 by assumption.
    unfold batch_size_ok in Hbs. lia. }
  rewrite capture_run by exact Hmax. cbv zeta.
  destruct (burst h max_packets g w) as [| m bufs].
  { split; [| split; [exact Hsize | discriminate]].
    intros ret packets' g' H. injection H as _ _ <-. reflexivity. }
  cbv beta iota. set (l := m :: bufs) in *. clearbody l.
  destruct (hz_read h max_packets g w =? 0).
  { split; [discriminate | split; [exact Hsize | discriminate]]. }
  pose proof (copy_fault_bufs l 0 arr) as Hsafe.
  destruct (copy_fault 0 l arr) as [u |].
  - split; [discriminate | split; [exact Hsize |]].
    intros H. injection H as ->. apply Hsafe; [| reflexivity].
    unfold batch_size_ok in Hbs. cbn [Nat.add]. lia.
  - split; [| split; [| discriminate]].
    + intros ret packets' g' H. injection H as _ _ <-. reflexivity.
    + unfold trace. cbn [snd]. rewrite observe_app, observe_free_events.
      rewrite app_nil_r. exact Hsize.
Qed.

Lemma api_step_safe {W : Type} (h : handler W) (w : W) (a : api_call)
      (g : globals) :
  rx_burst_bounded h ->
  batch_size_ok g ->
  wp h (api_step a g) w
     (fun o _ tr =>
        Forall (fun n => 1 <= n <= MAX_PKT_BURST) (observe rx_burst_size tr)
        /\ match o with
           | Done g' => batch_size_ok g'
           | Undefined u => u <> BufsOutOfBounds
           end).
Proof.
  intros Hrx Hbs. destruct a as [port cores batch_size | packets max_packets
                                 | port outs | | signum]; cbn [api_step].
  - apply wp_bind. eapply wp_weaken; [| apply dpdk_init_paths].
    intros o w' tr (ret & g' & -> & Hpost & Hquiet).
    cbn [wp snd]. rewrite app_nil_r, Hquiet. split; [constructor |].
    destruct Hpost as [[_ ->] | [[_ ->] | [_ [pool ->]]]];
      [exact Hbs | apply clamp_batch_size_range ..].
  - apply wp_bind. apply wp_run.
    destruct (capture_safe h w packets max_packets g Hrx Hbs)
      as (Hsame & Hsize & Hsafe).
    destruct (result (run h (dpdk_capture_packets packets max_packets g) w))
      as [[[ret packets'] g'] | u] eqn:Hrun.
    + cbn [wp snd]. rewrite app_nil_r. split; [exact Hsize |].
      rewrite (Hsame ret packets' g' eq_refl). exact Hbs.
    + split; [exact Hsize |]. intros ->. apply Hsafe. reflexivity.
  - unfold dpdk_get_stats. destruct outs as [[[rx tx] rxb] txb].
    repeat wp_step h.
    all: cbn [wp bind snd]; unfold observe;
      cbn [flat_map called projT1 rx_burst_size app];
      (split; [constructor | exact Hbs]).
  - unfold dpdk_cleanup.
    repeat wp_step h.
    all: cbn [wp bind snd]; unfold observe;
      cbn [flat_map called projT1 rx_burst_size app];
      (split; [constructor | exact Hbs]).
  - unfold signal_handler.
    repeat wp_step h.
    all: cbn [wp bind snd]; unfold observe;
      cbn [flat_map called projT1 rx_burst_size app];
      (split; [constructor | exact Hbs]).
Qed.

Lemma api_run_safe {W : Type} (h : handler W) (calls : list api_call) :
  rx_burst_bounded h ->
  forall w g,
    batch_size_ok g ->
    wp h (api_run calls g) w
       (fun o _ tr =>
          Forall (fun n => 1 <= n <= MAX_PKT_BURST) (observe rx_burst_size tr)
          /\ match o with
             | Done g' => batch_size_ok g'
             | Undefined u => u <> BufsOutOfBounds
             end).
Proof.
  intros Hrx. induction calls as [| a calls IH]; intros w g Hbs.
  - cbn [api_run wp]. split; [constructor | exact Hbs].
  - cbn [api_run]. apply wp_bind.
    eapply wp_weaken; [| apply api_step_safe; assumption].
    intros [g' | u] w' tr [Hsize Hpost].
    + eapply wp_weaken; [| apply IH; exact Hpost].
      intros o w2 tr2 [Hsize2 Hpost2]. split; [| exact Hpost2].
      rewrite observe_app. apply Forall_app. split; assumption.
    + split; assumption.
Qed.

(** C10: the batch size of the session is 32 before any call and lies in
    [1, 32] after every sequence of calls into the library (initialisations,
    captures, statistics queries, cleanups) and deliveries of a signal;
    a successful initialisation establishes it from any session.  Against a
    driver whose burst receive honours its bound, every burst receive issued
    along the way asks for between 1 and 32 frames, and no step indexes the
    32-slot mbuf array out of bounds. *)
Theorem batch_size_invariant :
  forall (W : Type) (h : handler W) (w : W) (calls : list api_call),
    rx_burst_bounded h ->
    let r := run h (api_run calls initial_globals) w in
    g_batch_size initial_globals = MAX_PKT_BURST
    /\ (forall g', result r = Done g' -> 1 <= g_batch_size g' <= MAX_PKT_BURST)
    /\ Forall (fun nb_pkts => 1 <= nb_pkts <= MAX_PKT_BURST)
              (observe rx_burst_size (trace r))
    /\ result r <> Undefined BufsOutOfBounds
    /\ (forall port cores batch_size g ret g',
           result (run h (dpdk_init port cores batch_size g) w)
           = Done (ret, g') ->
           ret = 0 ->
           1 <= g_batch_size g' <= MAX_PKT_BURST).
Proof.
  intros W h w calls Hrx. cbv zeta.
  assert (Hinit : batch_size_ok initial_globals)
    by (vm_compute; split; discriminate).
  pose proof (api_run_safe h calls Hrx w initial_globals Hinit) as H.
  apply wp_run in H. destruct H as [Hsize Hpost].
  split; [reflexivity | split; [| split; [exact Hsize | split]]].
  - intros g' Hrun. rewrite Hrun in Hpost. exact Hpost.
  - intros Hrun. rewrite Hrun in Hpost. apply Hpost. reflexivity.
  - intros port cores batch_size g ret g' Hrun Hret.
    pose proof (dpdk_init_paths h w port cores batch_size g) as Hpaths.
    apply wp_run in Hpaths.
    destruct Hpaths as (ret' & g'' & Hrun' & Hcases & _).
    rewrite Hrun in Hrun'. injection Hrun' as <- <-.
    destruct Hcases as [[H _] | [[H _] | [_ [pool ->]]]]; [lia | lia |].
    apply clamp_batch_size_range.
Qed.

Lemma batch_size_invariant_witness :
  rx_burst_bounded SimNic.drive
  /\ Forall (fun nb_pkts => 1 <= nb_pkts <= MAX_PKT_BURST)
            (observe rx_burst_size
               (trace (run SimNic.drive
                           (api_run
                              [api_init 0 "0-1" 40;
                               api_capture (Some [SimNic.blank]) 1;
                               api_cleanup;
                               api_capture (Some [SimNic.blank]) 50]
                              initial_globals)
                           SimNic.busy))).
Proof.
  split; [exact drive_rx_burst_bounded |].
  apply (batch_size_invariant SimNic.nic SimNic.drive SimNic.busy).
  exact drive_rx_burst_bounded.
Defined.

(** ** [dpdk_get_stats] *)

Lemma capture_keeps_session {W : Type} (h : handler W) (w : W)
      (packets : option (list packet)) (max_packets : Z) (g : globals)
      (ret : Z) (packets' : option (list packet)) (g' : globals) :
  result (run h (dpdk_capture_packets packets max_packets g) w)
  = Done (ret, packets', g') ->
  g' = g.
Proof.
  destruct (Z.leb_spec max_packets 0) as [Hmax | Hmax].
  { rewrite capture_nonpositive by exact Hmax.
    intros H. injection H as _ _ <-. reflexivity. }
  destruct packets as [arr |].
  2: { intros H. injection H as _ _ <-. reflexivity. }
  rewrite capture_run by exact Hmax. cbv zeta.
  destruct (burst h max_packets g w) as [| m bufs].
  { intros H. injection H as _ _ <-. reflexivity. }
  destruct (hz_read h max_packets g w =? 0); [discriminate |].
  destruct (copy_fault 0 (m :: bufs) arr); [discriminate |].
  intros H. injection H as _ _ <-. reflexivity.
Qed.

Lemma get_stats_mismatch (port : Z) (outs : out_ptrs) (g : globals) :
  port <> g_port_id g ->
  dpdk_get_stats port outs g = Ret (-1, outs, g).
Proof.
  intros Hport. unfold dpdk_get_stats. destruct outs as [[[rx tx] rxb] txb].
  replace (port =? g_port_id g) with false
    by (symmetry; apply Z.eqb_neq; exact Hport).
  reflexivity.
Qed.

Lemma get_stats_match {W : Type} (h : handler W) (w : W) (outs : out_ptrs)
      (g : globals) :
  let query := rte_eth_stats_get (u16 (g_port_id g)) in
  let answer := fst (h query w) in
  run h (dpdk_get_stats (g_port_id g) outs g) w
  = (Done (if fst answer =? 0
           then (0, stats_stored outs (snd answer), g)
           else (fst answer, outs, g)),
     snd (h query w),
     [existT resp query answer]).
Proof.
  cbv zeta. unfold dpdk_get_stats, stats_stored.
  destruct outs as [[[rx tx] rxb] txb].
  rewrite Z.eqb_refl. cbn [negb extcall bind]. rewrite run_call.
  destruct (h (rte_eth_stats_get (u16 (g_port_id g))) w) as [[ret stats] w'].
  cbn [fst snd]. destruct (ret =? 0); reflexivity.
Qed.

(** C5: for a port other than the session's, [dpdk_get_stats] is a plain
    [return -1]: no external call, nothing stored; captures made before do
    not matter, since a capture that returns leaves the session as it was.
    For the session's port it issues one statistics query and hands on what
    the driver answered: stored through each non-null pointer are the
    driver's four counters, unchanged, with 0 returned, or, when the query
    failed, the driver's code with nothing stored. *)
Theorem get_stats_port_check :
  forall (port : Z) (outs : out_ptrs) (g : globals),
    (port <> g_port_id g ->
     dpdk_get_stats port outs g = Ret (-1, outs, g))
    /\ (forall (W : Type) (h : handler W) (w : W) packets max_packets
               ret packets' g',
           result (run h (dpdk_capture_packets packets max_packets g) w)
           = Done (ret, packets', g') ->
           port <> g_port_id g ->
           dpdk_get_stats port outs g' = Ret (-1, outs, g'))
    /\ (port = g_port_id g ->
        forall (W : Type) (h : handler W) (w : W),
          let query := rte_eth_stats_get (u16 port) in
          let answer := fst (h query w) in
          run h (dpdk_get_stats port outs g) w
          = (Done (if fst answer =? 0
                   then (0, stats_stored outs (snd answer), g)
                   else (fst answer, outs, g)),
             snd (h query w),
             [existT resp query answer]))
    /\ (forall (a b c d : Z) (stats : rte_eth_stats),
           stats_stored (Some a, Some b, Some c, Some d) stats
           = (Some (ipackets stats), Some (opackets stats),
              Some (ibytes stats), Some (obytes stats))).
Proof.
  intros port outs g. split; [| split; [| split]].
  - apply get_stats_mismatch.
  - intros W h w packets max_packets ret packets' g' Hrun Hport.
    apply capture_keeps_session in Hrun. subst g'.
    apply get_stats_mismatch. exact Hport.
  - intros -> W h w. apply get_stats_match.
  - intros a b c d stats. reflexivity.
Qed.

Lemma get_stats_port_check_witness :
  dpdk_get_stats 1 (Some 9, Some 9, Some 9, Some 9) initial_globals
  = Ret (-1, (Some 9, Some 9, Some 9, Some 9), initial_globals)
  /\ run SimNic.drive
         (dpdk_get_stats 0 (Some 9, Some 9, None, Some 9) initial_globals)
         SimNic.idle
     = (Done (0, (Some 0, Some 0, None, Some 0), initial_globals),
        SimNic.idle,
        [existT resp (rte_eth_stats_get 0) (0, SimNic.no_stats)]).
Proof.
  split.
  - apply (get_stats_port_check 1 (Some 9, Some 9, Some 9, Some 9)
                                initial_globals).
    vm_compute. discriminate.
  - apply (get_stats_port_check 0 (Some 9, Some 9, None, Some 9)
                                initial_globals).
    reflexivity.
Defined.

(** ** [dpdk_cleanup] *)

Lemma cleanup_paths {W : Type} (h : handler W) (w : W) (g : globals) :
  wp h (dpdk_cleanup g) w
     (fun o _ tr =>
        o = Done (tt, g)
        /\ exists valid, map called tr = teardown_calls g valid).
Proof.
  unfold dpdk_cleanup.
  repeat wp_step h.
  all: cbn [wp bind]; (split; [reflexivity |]).
  all: match goal with
       | r : resp (rte_eth_dev_is_valid_port _) |- _ => exists r
       end.
  all: unfold teardown_calls; use_tests; reflexivity.
Qed.

(** C4, as the claim states it, fails: after an initialisation and a
    cleanup, a capture is not rejected (it performs the burst receive and
    returns the frame that was pending) and neither is the statistics query
    that follows (it asks the driver and returns 0). *)
Lemma capture_after_cleanup_receives :
  let session :=
    run SimNic.drive
        (x <- dpdk_init 0 "0-1" 16 initial_globals ;; dpdk_cleanup (snd x))
        SimNic.busy in
  exists g w,
    result session = Done (tt, g) /\ snd (fst session) = w
    /\ (let r := run SimNic.drive
                     (dpdk_capture_packets (Some [SimNic.blank]) 1 g) w in
        ~ rejected (result r)
        /\ map called (trace r)
           = [rte_eth_rx_burst 0 0 1; rte_get_tsc_cycles; rte_get_tsc_hz;
              rte_pktmbuf_free (SimNic.frame 1)])
    /\ (let r := run SimNic.drive
                     (dpdk_get_stats 0 (Some 0, Some 0, Some 0, Some 0) g) w in
        ~ rejected (result r)
        /\ map called (trace r) = [rte_eth_stats_get 0]).
Proof.
  cbv zeta. eexists _, _.
  split; [vm_compute; reflexivity | split; [reflexivity |]].
  split; (split; [| vm_compute; reflexivity]).
  - apply capture_not_rejected. lia.
  - intros (ret & x & g & Hrun & Hneg).
    vm_compute in Hrun. injection Hrun as <- _ _. lia.
Qed.

(** C4, amended: the code has no closed state.  [dpdk_cleanup] always
    returns and leaves the session variables as they were, and every call of
    it, a repeated one included, issues the teardown calls again: the
    valid-port check, stop and close when the port is valid, the runtime
    cleanup.  A capture or a statistics query made after it is therefore not
    rejected as closed: with a non-null array and a positive [max_packets]
    the capture still starts with the burst receive and never returns a
    negative value, and the query for the session's port still asks the
    driver. *)
Theorem cleanup_keeps_session :
  forall (W : Type) (h : handler W) (w : W) (g : globals),
    let r := run h (dpdk_cleanup g) w in
    let w' := snd (fst r) in
    result r = Done (tt, g)
    /\ (exists valid, map called (trace r) = teardown_calls g valid)
    /\ (exists valid,
           map called (trace (run h (dpdk_cleanup g) w'))
           = teardown_calls g valid)
    /\ (forall (arr : list packet) (max_packets : Z),
           0 < max_packets ->
           let c := run h (dpdk_capture_packets (Some arr) max_packets g) w' in
           ~ rejected (result c)
           /\ exists calls,
               map called (trace c) = burst_call max_packets g :: calls)
    /\ (forall outs : out_ptrs,
           map called (trace (run h (dpdk_get_stats (g_port_id g) outs g) w'))
           = [rte_eth_stats_get (u16 (g_port_id g))]).
Proof.
  intros W h w g. cbv zeta.
  pose proof (cleanup_paths h w g) as H1. apply wp_run in H1.
  destruct H1 as [Hdone Hcalls].
  split; [exact Hdone | split; [exact Hcalls | split; [| split]]].
  - pose proof (cleanup_paths h (snd (fst (run h (dpdk_cleanup g) w))) g)
      as H2.
    apply wp_run in H2. exact (proj2 H2).
  - intros arr max_packets Hmax. split.
    + apply capture_not_rejected. exact Hmax.
    + apply capture_receives_first. exact Hmax.
  - intros outs. rewrite get_stats_match. reflexivity.
Qed.

Lemma cleanup_keeps_session_witness :
  0 < 1
  /\ ~ rejected
       (result (run SimNic.drive
                    (dpdk_capture_packets (Some [SimNic.blank]) 1
                                          initial_globals)
                    (snd (fst (run SimNic.drive (dpdk_cleanup initial_globals)
                                   SimNic.busy))))).
Proof.
  split; [lia |].
  destruct (cleanup_keeps_session SimNic.nic SimNic.drive SimNic.busy
                                  initial_globals)
    as (_ & _ & _ & Hcapture & _).
  apply (Hcapture [SimNic.blank] 1). lia.
Defined.

(** * Further properties of the code *)

(** ** What a capture stores *)

Lemma copied_from_filled (g : globals) (ts : Z) (bufs : list rte_mbuf) :
  Forall2 (copied_from g) bufs (map (fill_packet g ts) bufs).
Proof.
  induction bufs as [| m bufs IH]; constructor; [| exact IH].
  repeat split.
Qed.

(** X1: a capture with a non-null array and a positive [max_packets] that
    returns [ret] has received [ret] frames and stored one packet per frame,
    in order, at the front of the array: the data pointer and the data
    length of the frame's mbuf, and the session's port reduced modulo 256
    (the field is a [uint8_t]), which is the port itself below 256.  The
    slots from [ret] on, and the number of slots, are as they were. *)
Theorem capture_fills_packets :
  forall (W : Type) (h : handler W) (w : W) (arr : list packet)
         (max_packets : Z) (g : globals)
         (ret : Z) (arr' : list packet) (g' : globals),
    0 < max_packets ->
    result (run h (dpdk_capture_packets (Some arr) max_packets g) w)
    = Done (ret, Some arr', g') ->
    ret = Z.of_nat (List.length (burst h max_packets g w))
    /\ Forall2 (copied_from g) (burst h max_packets g w)
               (firstn (Z.to_nat ret) arr')
    /\ skipn (Z.to_nat ret) arr' = skipn (Z.to_nat ret) arr
    /\ List.length arr' = List.length arr
    /\ (0 <= g_port_id g < 256 -> g_port_id g mod 256 = g_port_id g).
Proof.
  intros W h w arr max_packets g ret arr' g' Hmax Hrun.
  rewrite capture_run in Hrun by exact Hmax. cbv zeta in Hrun.
  destruct (burst h max_packets g w) as [| m bufs].
  { injection Hrun as <- <- _. cbn.
    repeat split; [constructor | apply Z.mod_small]. }
  cbv beta iota in Hrun. set (l := m :: bufs) in *. clearbody l.
  destruct (hz_read h max_packets g w =? 0); [discriminate |].
  destruct (copy_fault 0 l arr) eqn:Hfault; [discriminate |].
  apply copy_fault_none in Hfault. destruct Hfault as [_ Hroom].
  injection Hrun as <- <- _.
  split; [reflexivity | split; [| split; [| split]]].
  - rewrite firstn_filled. apply copied_from_filled.
  - rewrite Nat2Z.id, skipn_app, length_map, Nat.sub_diag.
    rewrite skipn_all2 by (rewrite length_map; lia). reflexivity.
  - rewrite length_app, length_map, length_skipn. lia.
  - apply Z.mod_small.
Qed.

Lemma capture_fills_packets_witness :
  0 < 2
  /\ Forall2 (copied_from initial_globals)
             [SimNic.frame 1; SimNic.frame 2]
             (firstn (Z.to_nat 2)
                     [fill_packet initial_globals 3 (SimNic.frame 1);
                      fill_packet initial_globals 3 (SimNic.frame 2);
                      SimNic.blank]).
Proof.
  split; [lia |].
  refine (proj1 (proj2 (capture_fills_packets
                          SimNic.nic SimNic.drive SimNic.busy
                          [SimNic.blank; SimNic.blank; SimNic.blank] 2
                          initial_globals 2 _ initial_globals _ _))).
  - lia.
  - vm_compute. reflexivity.
Defined.

(** X2: a capture with a non-null array and a positive [max_packets] runs
    into undefined behaviour exactly when the burst receive stored at least
    one frame and the frequency read is zero (line 206 divides by it), or
    more frames were stored than the 32 slots of [bufs], or more than the
    caller's array holds.  With a driver that honours [nb_pkts], a session
    batch size in [1, 32] and an array of [max_packets] slots, only the
    zero frequency is left. *)
Theorem capture_undefined_iff :
  forall (W : Type) (h : handler W) (w : W) (arr : list packet)
         (max_packets : Z) (g : globals),
    0 < max_packets ->
    let r := run h (dpdk_capture_packets (Some arr) max_packets g) w in
    let bufs := burst h max_packets g w in
    ((exists u, result r = Undefined u) <->
     bufs <> []
     /\ (hz_read h max_packets g w = 0
         \/ MAX_PKT_BURST < Z.of_nat (List.length bufs)
         \/ (List.length arr < List.length bufs)%nat))
    /\ (rx_burst_bounded h ->
        batch_size_ok g ->
        max_packets <= Z.of_nat (List.length arr) ->
        ((exists u, result r = Undefined u) <->
         bufs <> [] /\ hz_read h max_packets g w = 0)).
Proof.
  intros W h w arr max_packets g Hmax. cbv zeta.
  assert (Hiff :
    (exists u,
        result (run h (dpdk_capture_packets (Some arr) max_packets g) w)
        = Undefined u) <->
    burst h max_packets g w <> []
    /\ (hz_read h max_packets g w = 0
        \/ MAX_PKT_BURST < Z.of_nat (List.length (burst h max_packets g w))
        \/ (List.length arr < List.length (burst h max_packets g w))%nat)).
  { rewrite capture_run by exact Hmax. cbv zeta.
    destruct (burst h max_packets g w) as [| m bufs].
    { split; [intros [u H]; discriminate | intros [H _]; contradiction]. }
    cbv beta iota. set (l := m :: bufs) in *.
    assert (Hl : l <> []) by (subst l; discriminate). clearbody l.
    destruct (hz_read h max_packets g w =? 0) eqn:Hhz.
    { apply Z.eqb_eq in Hhz. split.
      - intros _. split; [exact Hl | left; exact Hhz].
      - intros _. eexists. reflexivity. }
    apply Z.eqb_neq in Hhz.
    pose proof (copy_fault_none l 0 arr) as Hnone.
    destruct (copy_fault 0 l arr) as [u |].
    - split; [| intros _; eexists; reflexivity].
      intros _. split; [exact Hl |]. right.
      destruct (Z.ltb_spec MAX_PKT_BURST (Z.of_nat (List.length l)));
        [left; assumption |].
      destruct (Nat.ltb_spec (List.length arr) (List.length l));
        [right; assumption |].
      assert (Hcontra : Some u = None); [| discriminate].
      apply Hnone. split; [right; cbn [Nat.add]; lia | lia].
    - destruct (proj1 Hnone eq_refl) as [[Hnil | Hslots] Hroom];
        [contradiction |].
      cbn [Nat.add] in Hslots.
      split; [intros [u H]; discriminate |].
      intros [_ [H | [H | H]]]; [contradiction | lia | lia]. }
  split; [exact Hiff |].
  intros Hrx Hbs Hroom. rewrite Hiff.
  pose proof (burst_at_most_min h w max_packets g Hrx Hbs Hmax) as Hlen.
  unfold batch_size_ok in Hbs.
  split.
  - intros [Hne [H | [H | H]]]; [split; assumption | lia | lia].
  - intros [Hne H]. split; [exact Hne | left; exact H].
Qed.

Lemma capture_undefined_iff_witness :
  0 < 2
  /\ exists u,
      result (run SimNic.drive
                  (dpdk_capture_packets (Some [SimNic.blank; SimNic.blank]) 2
                                        initial_globals)
                  uncalibrated)
      = Undefined u.
Proof.
  assert (Hmax : 0 < 2) by lia.
  split; [exact Hmax |].
  apply (proj1 (capture_undefined_iff
                  SimNic.nic SimNic.drive uncalibrated
                  [SimNic.blank; SimNic.blank] 2 initial_globals Hmax)).
  split; [vm_compute; discriminate | left; reflexivity].
Defined.

(** ** The quit flag *)

(** X3: no capture and no statistics query reads [force_quit]: with the flag
    set to any value the run issues the same external calls, leaves the
    driver in the same state and returns the same value and outputs as with
    the flag as it was; a quit request that is pending does not stop or
    change a capture. *)
Theorem capture_ignores_force_quit :
  forall (W : Type) (h : handler W) (w : W) (g : globals) (v : Z),
    (forall (packets : option (list packet)) (max_packets : Z),
        run h (dpdk_capture_packets packets max_packets (set_force_quit v g)) w
        = let '(o, w', tr) :=
            run h (dpdk_capture_packets packets max_packets g) w in
          (with_session (set_force_quit v) o, w', tr))
    /\ (forall (port : Z) (outs : out_ptrs),
           run h (dpdk_get_stats port outs (set_force_quit v g)) w
           = let '(o, w', tr) := run h (dpdk_get_stats port outs g) w in
             (with_session (set_force_quit v) o, w', tr)).
Proof.
  intros W h w g v. split.
  - intros packets max_packets.
    destruct (Z.leb_spec max_packets 0) as [Hmax | Hmax].
    { rewrite !capture_nonpositive by exact Hmax. reflexivity. }
    destruct packets as [arr |]; [| reflexivity].
    rewrite !capture_run by exact Hmax. cbv zeta.
    change (burst h max_packets (set_force_quit v g) w)
      with (burst h max_packets g w).
    change (hz_read h max_packets (set_force_quit v g) w)
      with (hz_read h max_packets g w).
    destruct (burst h max_packets g w) as [| m bufs]; [reflexivity |].
    destruct (hz_read h max_packets g w =? 0); [reflexivity |].
    destruct (copy_fault 0 (m :: bufs) arr); reflexivity.
  - intros port outs. unfold dpdk_get_stats.
    destruct outs as [[[rx tx] rxb] txb].
    change (g_port_id (set_force_quit v g)) with (g_port_id g).
    destruct (port =? g_port_id g); cbn [negb]; [| reflexivity].
    cbn [run bind extcall].
    destruct (h (rte_eth_stats_get (u16 port)) w) as [[ret stats] w'].
    destruct (ret =? 0); reflexivity.
Qed.

Lemma api_step_writes {W : Type} (h : handler W) (w : W) (a : api_call)
      (g : globals) :
  wp h (api_step a g) w
     (fun o _ _ =>
        forall g',
          o = Done g' ->
          force_quit g' = (if quit_signal a then 1 else force_quit g)
          /\ (is_init a = false -> same_configuration g g')).
Proof.
  destruct a as [port cores batch_size | packets max_packets
                 | port outs | | signum]; cbn [api_step quit_signal is_init].
  - apply wp_bind. eapply wp_weaken; [| apply dpdk_init_paths].
    intros o w' tr (ret & g1 & -> & Hpost & _).
    cbn [wp snd]. intros g' Hg'. injection Hg' as <-.
    split; [| discriminate].
    destruct Hpost as [[_ ->] | [[_ ->] | [_ [pool ->]]]]; reflexivity.
  - apply wp_bind. apply wp_run.
    destruct (result (run h (dpdk_capture_packets packets max_packets g) w))
      as [[[ret packets'] g1] | u] eqn:Hrun; [| discriminate].
    apply capture_keeps_session in Hrun. subst g1.
    cbn [wp snd]. intros g' Hg'. injection Hg' as <-.
    split; [reflexivity | intros _; repeat split].
  - unfold dpdk_get_stats. destruct outs as [[[rx tx] rxb] txb].
    repeat wp_step h.
    all: cbn [wp bind snd]; intros g' Hg'; injection Hg' as <-.
    all: split; [reflexivity | intros _; repeat split].
  - unfold dpdk_cleanup.
    repeat wp_step h.
    all: cbn [wp bind snd]; intros g' Hg'; injection Hg' as <-.
    all: split; [reflexivity | intros _; repeat split].
  - unfold signal_handler.
    repeat wp_step h.
    all: cbn [wp bind snd]; intros g' Hg'; injection Hg' as <-.
    all: split; [reflexivity | intros _; repeat split].
Qed.

Lemma api_run_writes {W : Type} (h : handler W) (calls : list api_call) :
  forall w g,
    wp h (api_run calls g) w
       (fun o _ _ =>
          forall g',
            o = Done g' ->
            force_quit g' = (if existsb quit_signal calls then 1
                             else force_quit g)
            /\ (existsb is_init calls = false -> same_configuration g g')).
Proof.
  induction calls as [| a calls IH]; intros w g.
  - cbn [api_run wp existsb]. intros g' Hg'. injection Hg' as <-.
    split; [reflexivity | intros _; repeat split].
  - cbn [api_run existsb]. apply wp_bind.
    eapply wp_weaken; [| apply api_step_writes].
    intros [g1 | u] w' tr Hstep; [| discriminate].
    destruct (Hstep g1 eq_refl) as [Hquit Hsame].
    eapply wp_weaken; [| apply IH].
    intros o w2 tr2 Hrest g' Hg'.
    destruct (Hrest g' Hg') as [Hquit' Hsame']. split.
    + rewrite Hquit', Hquit.
      destruct (quit_signal a); destruct (existsb quit_signal calls);
        reflexivity.
    + intros Hnone. apply orb_false_iff in Hnone. destruct Hnone as [Ha Hc].
      destruct (Hsame Ha) as (H1 & H2 & H3).
      destruct (Hsame' Hc) as (H1' & H2' & H3').
      repeat split; congruence.
Qed.

(** X4: over any sequence of calls into the library and deliveries of
    signals that runs to its end, [force_quit] is written by the signal
    handler only: it ends as 1 when a SIGINT or SIGTERM was delivered along
    the way (nothing resets it, a later initialisation included) and as it
    started otherwise.  The pool, the port and the batch size are written by
    [dpdk_init] only: a sequence without an initialisation leaves them as
    they were. *)
Theorem session_writers :
  forall (W : Type) (h : handler W) (w : W) (calls : list api_call)
         (g g' : globals),
    result (run h (api_run calls g) w) = Done g' ->
    force_quit g' = (if existsb quit_signal calls then 1 else force_quit g)
    /\ (existsb is_init calls = false -> same_configuration g g').
Proof.
  intros W h w calls g g' Hrun.
  pose proof (api_run_writes h calls w g) as H. apply wp_run in H.
  apply H. exact Hrun.
Qed.

Lemma session_writers_witness :
  exists g',
    result (run SimNic.drive
                (api_run [api_signal 15; api_init 0 "0-1" 8;
                          api_capture (Some [SimNic.blank]) 1; api_cleanup]
                         initial_globals)
                SimNic.busy)
    = Done g'
    /\ force_quit g' = 1.
Proof.
  eexists. split; [vm_compute; reflexivity |].
  refine (proj1 (session_writers
                   SimNic.nic SimNic.drive SimNic.busy
                   [api_signal 15; api_init 0 "0-1" 8;
                    api_capture (Some [SimNic.blank]) 1; api_cleanup]
                   initial_globals _ _)).
  vm_compute. reflexivity.
Defined.

(** ** More on [port_init] *)

Lemma land_fast_free (capa : Z) :
  Z.land capa RTE_ETH_TX_OFFLOAD_MBUF_FAST_FREE = offloads_for capa.
Proof.
  unfold offloads_for, RTE_ETH_TX_OFFLOAD_MBUF_FAST_FREE.
  change (Z.shiftl 1 16) with (2 ^ 16).
  apply Z.bits_inj'. intros n Hn.
  rewrite Z.land_spec, Z.pow2_bits_eqb by lia.
  destruct (Z.eqb_spec 16 n) as [<- | Hne].
  - rewrite andb_true_r. destruct (Z.testbit capa 16).
    + rewrite Z.pow2_bits_eqb by lia. reflexivity.
    + rewrite Z.bits_0. reflexivity.
  - rewrite andb_false_r. destruct (Z.testbit capa 16).
    + rewrite Z.pow2_bits_eqb by lia. symmetry. apply Z.eqb_neq. exact Hne.
    + rewrite Z.bits_0. reflexivity.
Qed.

Lemma fast_free_conf (info : rte_eth_dev_info) :
  (if negb (Z.land (tx_offload_capa info) RTE_ETH_TX_OFFLOAD_MBUF_FAST_FREE
            =? 0)
   then {| rxmode_max_lro_pkt_size := rxmode_max_lro_pkt_size port_conf_default;
           txmode_offloads := Z.lor (txmode_offloads port_conf_default)
                                    RTE_ETH_TX_OFFLOAD_MBUF_FAST_FREE |}
   else port_conf_default)
  = conf_for info.
Proof.
  rewrite land_fast_free. unfold conf_for, offloads_for.
  destruct (Z.testbit (tx_offload_capa info) 16); reflexivity.
Qed.

Lemma port_init_calls {W : Type} (h : handler W) (w : W) (port : Z)
      (pool : option mempool) :
  wp h (port_init port pool) w
     (fun o _ tr =>
        exists ret,
          o = Done ret
          /\ Forall (port_scoped port) (map called tr)
          /\ Forall (eq pool) (observe rx_queue_pool tr)
          /\ (ret = 0 ->
              exists conf txconf rxd txd rx_socket tx_socket addr,
                map called tr
                = configuration_calls port pool conf txconf rxd txd
                                      rx_socket tx_socket addr)
          /\ offloads_follow_device tr).
Proof.
  unfold port_init. cbv zeta. change (Z.to_nat 1) with 1%nat.
  repeat wp_step h.
  all: cbn [wp bind]; eexists; (split; [reflexivity |]).
  all: test_facts.
  all: unfold offloads_follow_device, observe.
  all: rewrite ?fast_free_conf.
  all: cbn [flat_map app map called projT1 rx_queue_pool dev_info_answer
            configure_conf tx_queue_conf fst snd txmode_offloads conf_for].
  all: (split; [repeat constructor |]).
  all: (split; [repeat constructor |]).
  all: (split; [first [ intros ?; exfalso; lia
                      | intros _; do 7 eexists; reflexivity ] |]).
  all: split; first [left; reflexivity | right; eexists; split; reflexivity].
Qed.

(** X5: whatever the driver answers, every external call [port_init] makes
    is a call on the port it was given or a line of logging: it never
    touches another port, the runtime, a pool or a receive burst; a receive
    queue it sets up is set up with the pool it was given. *)
Theorem port_init_scope :
  forall (W : Type) (h : handler W) (w : W) (port : Z)
         (pool : option mempool),
    let r := run h (port_init port pool) w in
    Forall (port_scoped port) (map called (trace r))
    /\ Forall (eq pool) (observe rx_queue_pool (trace r)).
Proof.
  intros W h w port pool. cbv zeta.
  pose proof (port_init_calls h w port pool) as H. apply wp_run in H.
  destruct H as (ret & _ & Hscope & Hpool & _). split; assumption.
Qed.

(** X6: a [port_init] that returns 0 has made exactly twelve external calls,
    in this order: valid-port check, device information, configure with one
    queue each way, descriptor adjustment from 1024 and 1024, socket id and
    receive queue 0, socket id and transmit queue 0, start, MAC address, the
    MAC log line, promiscuous mode; the port is started before promiscuous
    mode is enabled and nothing follows it. *)
Theorem port_init_success_sequence :
  forall (W : Type) (h : handler W) (w : W) (port : Z)
         (pool : option mempool),
    let r := run h (port_init port pool) w in
    result r = Done 0 ->
    exists conf txconf rxd txd rx_socket tx_socket addr,
      map called (trace r)
      = configuration_calls port pool conf txconf rxd txd
                            rx_socket tx_socket addr.
Proof.
  intros W h w port pool. cbv zeta. intros Hrun.
  pose proof (port_init_calls h w port pool) as H. apply wp_run in H.
  destruct H as (ret & Hret & _ & _ & Hseq & _).
  rewrite Hrun in Hret. injection Hret as <-. apply Hseq. reflexivity.
Qed.

Lemma port_init_success_sequence_witness :
  result (run SimNic.drive (port_init 0 (Some 1)) SimNic.idle) = Done 0
  /\ exists conf txconf rxd txd rx_socket tx_socket addr,
      map called (trace (run SimNic.drive (port_init 0 (Some 1)) SimNic.idle))
      = configuration_calls 0 (Some 1) conf txconf rxd txd
                            rx_socket tx_socket addr.
Proof.
  assert (Hrun : result (run SimNic.drive (port_init 0 (Some 1)) SimNic.idle)
                 = Done 0) by (vm_compute; reflexivity).
  split; [exact Hrun |].
  apply (port_init_success_sequence
           SimNic.nic SimNic.drive SimNic.idle 0 (Some 1)).
  exact Hrun.
Defined.

(** X7: the offloads [port_init] asks for follow the device: whenever it
    configures the port, the configuration has [max_lro_pkt_size] 1518 and,
    as transmit offloads, fast mbuf free (bit 16, 65536) exactly when bit 16
    of the capabilities the device information answered is set, and nothing
    else; whenever it sets up the transmit queue, it is with the device's
    default queue configuration and those same offloads. *)
Theorem port_init_offloads :
  forall (W : Type) (h : handler W) (w : W) (port : Z)
         (pool : option mempool),
    offloads_follow_device (trace (run h (port_init port pool) w))
    /\ (forall capa,
           offloads_for capa = Z.land capa 65536
           /\ (Z.testbit capa 16 = true -> offloads_for capa = 65536)
           /\ (Z.testbit capa 16 = false -> offloads_for capa = 0)).
Proof.
  intros W h w port pool. split.
  - pose proof (port_init_calls h w port pool) as H. apply wp_run in H.
    destruct H as (ret & _ & _ & _ & _ & Hoff). exact Hoff.
  - intros capa. split; [| split].
    + symmetry. apply land_fast_free.
    + intros Hbit. unfold offloads_for. rewrite Hbit. reflexivity.
    + intros Hbit. unfold offloads_for. rewrite Hbit. reflexivity.
Qed.

Lemma port_init_offloads_witness :
  observe configure_conf
          (trace (run SimNic.drive (port_init 0 (Some 1)) SimNic.idle))
  = [conf_for {| tx_offload_capa := 65536;
                 default_txconf := {| txconf_driver := 7;
                                      txconf_offloads := 0 |} |}]
  /\ offloads_for 65536 = 65536
  /\ offloads_for 65535 = 0.
Proof.
  destruct (port_init_offloads SimNic.nic SimNic.drive SimNic.idle 0 (Some 1))
    as [_ Hbits].
  split; [vm_compute; reflexivity | split].
  - apply (Hbits 65536). reflexivity.
  - apply (Hbits 65535). reflexivity.
Defined.

(** ** More on [dpdk_init] *)

Lemma port_scoped_quiet (port : Z) (tr : list event) :
  Forall (port_scoped port) (map called tr) ->
  observe avail_ports tr = []
  /\ filter is_eal_cleanup (map called tr) = []
  /\ filter is_signal (map called tr) = [].
Proof.
  induction tr as [| [c r] tr IH]; intros H.
  - repeat split.
  - cbn [map called projT1] in H. inversion H as [| c' l Hc Hl]; subst.
    destruct (IH Hl) as (IH1 & IH2 & IH3).
    unfold observe in *. cbn [flat_map map called projT1 filter].
    destruct c; cbn in Hc; try contradiction;
      cbn [avail_ports is_eal_cleanup is_signal app];
      repeat split; assumption.
Qed.

Lemma dpdk_init_calls {W : Type} (h : handler W) (w : W) (port : Z)
      (cores : string) (batch_size : Z) (g : globals) :
  wp h (dpdk_init port cores batch_size g) w
     (fun o _ tr =>
        exists ret g' nb_ports socket port_calls,
          o = Done (ret, g')
          /\ map called tr
             = init_calls port cores ret nb_ports socket port_calls
          /\ Forall (port_scoped (u16 port)) port_calls
          /\ init_stage port ret nb_ports g' tr).
Proof.
  unfold dpdk_init. cbv zeta.
  repeat wp_step h.
  all: match goal with
       | H : mbuf_pool _ = _ |- _ => cbn [mbuf_pool set_mbuf_pool] in H; subst
       | _ => idtac
       end.
  all: test_facts.
  all: lazymatch goal with
       | |- wp _ (bind (port_init _ _) _) _ _ =>
           apply wp_bind; eapply wp_weaken; [| apply port_init_calls];
           intros o w' tr (ret & -> & Hscope & _);
           cbn [g_port_id set_mbuf_pool set_g_batch_size set_g_port_id]
             in Hscope;
           destruct (port_scoped_quiet _ _ Hscope) as (Hquiet & _ & _);
           repeat wp_step h;
           cbn [wp bind]; test_facts;
           match goal with
           | r : resp rte_eth_dev_count_avail,
             s : resp rte_socket_id |- _ =>
               eexists _, _, r, s, (map called tr)
           end;
           (split; [reflexivity |]);
           (split; [cbn [map called projT1 app]; rewrite map_app;
                    reflexivity |]);
           (split; [exact Hscope |]);
           right;
           (split; [unfold observe in *;
                    cbn [flat_map avail_ports app];
                    rewrite flat_map_app, Hquiet; reflexivity |]);
           right; right; repeat split; solve [auto | lia]
       | _ => idtac
       end.
  all: match goal with
       | r : resp rte_eth_dev_count_avail, s : resp rte_socket_id |- _ =>
           eexists _, _, r, s, []
       | r : resp rte_eth_dev_count_avail |- _ => eexists _, _, r, 0, []
       | _ => eexists _, _, 0, 0, []
       end.
  all: (split; [reflexivity |]); (split; [reflexivity |]).
  all: (split; [constructor |]).
  all: unfold init_stage, observe; cbn [flat_map avail_ports app].
  all: first [ left; reflexivity
             | right; (split; [reflexivity |]);
               first [ left; split; [reflexivity | assumption]
                     | right; left; repeat split; assumption
                     | right; right; repeat split; auto ] ].
Qed.

Lemma port_scoped_filters (port : Z) (calls : list call) :
  Forall (port_scoped port) calls ->
  filter is_eal_cleanup calls = [] /\ filter is_signal calls = [].
Proof.
  induction 1 as [| c calls Hc _ [IH1 IH2]]; [split; reflexivity |].
  destruct c; cbn in Hc; try contradiction;
    cbn [filter is_eal_cleanup is_signal]; split; assumption.
Qed.

(** X8: [dpdk_init] always returns, and the value it returns fixes the
    external calls it made.  The runtime is started first.  -1 (runtime
    start failed) is followed by a log line only; -2 (no port) and -3 (port
    not available) stop after the port count, before a pool is created or a
    device touched; -4 (no pool) stops after the pool creation; -5 and 0
    have run [port_init], whose calls all address the port.  The runtime is
    cleaned up exactly once, as the last call but the log line's, on -2, -3,
    -4 and -5, and never on -1 and 0; the two signal handlers are installed,
    SIGINT then SIGTERM, on 0 only. *)
Theorem init_call_sequence :
  forall (W : Type) (h : handler W) (w : W) (port : Z) (cores : string)
         (batch_size : Z) (g : globals),
    let r := run h (dpdk_init port cores batch_size g) w in
    exists ret g' nb_ports socket port_calls,
      result r = Done (ret, g')
      /\ map called (trace r)
         = init_calls port cores ret nb_ports socket port_calls
      /\ Forall (port_scoped (u16 port)) port_calls
      /\ List.length (filter is_eal_cleanup (map called (trace r)))
         = (if (ret =? 0) || (ret =? -1) then 0%nat else 1%nat)
      /\ filter is_signal (map called (trace r))
         = (if ret =? 0 then [signal SIGINT; signal SIGTERM] else []).
Proof.
  intros W h w port cores batch_size g. cbv zeta.
  pose proof (dpdk_init_calls h w port cores batch_size g) as H.
  apply wp_run in H.
  destruct H as (ret & g' & nb & socket & pcalls & Hrun & Hcalls & Hscope
                 & Hstage).
  exists ret, g', nb, socket, pcalls.
  split; [exact Hrun | split; [exact Hcalls | split; [exact Hscope |]]].
  rewrite Hcalls.
  destruct (port_scoped_filters _ _ Hscope) as [Hc Hs].
  assert (Hret : ret = -1 \/ ret = -2 \/ ret = -3 \/ ret = -4 \/ ret = -5
                 \/ ret = 0).
  { destruct Hstage as [H | [_ [[H _] | [[H _] | [H _]]]]]; lia. }
  destruct Hret as [-> | [-> | [-> | [-> | [-> | ->]]]]];
    cbn [init_calls Z.eqb Pos.eqb orb filter is_eal_cleanup is_signal
         List.length];
    rewrite ?filter_app, ?Hc, ?Hs; split; reflexivity.
Qed.

(** X9: [dpdk_init] gets past its port checks (returns 0, -4 or -5) only
    for a port that exists: with [port] an [int] and the port count the
    runtime answered a [uint16_t], the port is then non-negative and below
    that count, it is what the session holds, and it is unchanged by the
    conversion to the 16-bit port numbers of the driver calls.  A negative
    port is always turned away with -1, -2 or -3. *)
Theorem init_accepts_valid_port_only :
  forall (W : Type) (h : handler W) (w : W) (port : Z) (cores : string)
         (batch_size : Z) (g : globals) (ret : Z) (g' : globals),
    let r := run h (dpdk_init port cores batch_size g) w in
    - 2 ^ 31 <= port < 2 ^ 31 ->
    Forall (fun n => 0 <= n < 2 ^ 16) (observe avail_ports (trace r)) ->
    result r = Done (ret, g') ->
    (ret = 0 \/ ret = -4 \/ ret = -5 ->
     exists nb_ports,
       observe avail_ports (trace r) = [nb_ports]
       /\ 0 <= port < nb_ports
       /\ g_port_id g' = port
       /\ u16 (g_port_id g') = port)
    /\ (port < 0 -> ret = -1 \/ ret = -2 \/ ret = -3).
Proof.
  intros W h w port cores batch_size g ret g'. cbv zeta.
  intros Hint Hrange Hrun.
  pose proof (dpdk_init_calls h w port cores batch_size g) as H.
  apply wp_run in H.
  destruct H as (ret' & g'' & nb & socket & pcalls & Hrun' & _ & _ & Hstage).
  rewrite Hrun in Hrun'. injection Hrun' as <- <-.
  assert (Hpast : ret = 0 \/ ret = -4 \/ ret = -5 ->
                  observe avail_ports
                    (trace (run h (dpdk_init port cores batch_size g) w))
                  = [nb]
                  /\ 0 <= port < nb /\ g_port_id g' = port).
  { intros Hret.
    destruct Hstage as [H | [Hnb [[H _] | [[H _] | (_ & Hne & Hlt & Hg)]]]];
      [lia | lia | lia |].
    rewrite Hnb in Hrange. apply Forall_inv in Hrange. rename Hrange into Hn.
    split; [exact Hnb | split; [| exact Hg]].
    unfold u32 in Hlt. change (2 ^ 32) with 4294967296 in Hlt.
    change (2 ^ 31) with 2147483648 in Hint.
    change (2 ^ 16) with 65536 in Hn.
    Z.to_euclidean_division_equations. lia. }
  split.
  - intros Hret. destruct (Hpast Hret) as (Hnb & Hport & Hg).
    exists nb. split; [exact Hnb | split; [exact Hport | split; [exact Hg |]]].
    rewrite Hg. apply u16_small.
    rewrite Hnb in Hrange. apply Forall_inv in Hrange. lia.
  - intros Hneg.
    destruct Hstage as [H | [_ [[H _] | [[H _] | [H _]]]]]; [lia | lia | lia |].
    assert (Hret : ret = 0 \/ ret = -4 \/ ret = -5) by lia.
    destruct (Hpast Hret) as (_ & Hport & _). lia.
Qed.

Lemma init_accepts_valid_port_only_witness :
  exists nb_ports,
    observe avail_ports
      (trace (run SimNic.drive (dpdk_init 0 "0-1" 16 initial_globals)
                  SimNic.idle))
    = [nb_ports]
    /\ 0 <= 0 < nb_ports.
Proof.
  destruct (init_accepts_valid_port_only
              SimNic.nic SimNic.drive SimNic.idle 0 "0-1" 16 initial_globals
              0 (configured 0 16 (Some 1) initial_globals))
    as [Hpast _].
  - vm_compute. split; [discriminate | reflexivity].
  - vm_compute. repeat constructor; discriminate.
  - vm_compute. reflexivity.
  - destruct (Hpast (or_introl eq_refl)) as (nb & Hnb & Hport & _).
    exists nb. split; assumption.
Defined.

Lemma substring_front_length (m : nat) :
  forall s, String.length (substring 0 m s) = Nat.min m (String.length s).
Proof.
  induction m as [| m IH]; intros [| c s]; cbn [substring String.length];
    try reflexivity.
  rewrite IH. reflexivity.
Qed.

Lemma substring_front_all (m : nat) :
  forall s, (String.length s <= m)%nat -> substring 0 m s = s.
Proof.
  induction m as [| m IH]; intros [| c s] Hlen;
    cbn [substring String.length] in *; try reflexivity; [lia |].
  rewrite IH by lia. reflexivity.
Qed.

Lemma substring_front_prefix (m : nat) :
  forall s, String.prefix (substring 0 m s) s = true.
Proof.
  induction m as [| m IH]; intros [| c s]; cbn [substring String.prefix];
    try reflexivity.
  destruct (Ascii.ascii_dec c c) as [_ | Hne]; [apply IH | contradiction].
Qed.

(** X10: the first external call of [dpdk_init] is always the start of the
    runtime, with the four arguments "dpdk_capture", "-l", the core list and
    "--".  The core list is copied through a 64-byte buffer: it is passed
    whole when it has at most 63 characters and cut to its first 63
    characters otherwise. *)
Theorem init_core_argument :
  forall (W : Type) (h : handler W) (w : W) (port : Z) (cores : string)
         (batch_size : Z) (g : globals),
    exists core_arg calls,
      map called (trace (run h (dpdk_init port cores batch_size g) w))
      = rte_eal_init ["dpdk_capture"; "-l"; core_arg; "--"] :: calls
      /\ String.length core_arg = Nat.min 63 (String.length cores)
      /\ String.prefix core_arg cores = true
      /\ ((String.length cores <= 63)%nat -> core_arg = cores).
Proof.
  intros W h w port cores batch_size g.
  pose proof (dpdk_init_calls h w port cores batch_size g) as H.
  apply wp_run in H.
  destruct H as (ret & g' & nb & socket & pcalls & _ & Hcalls & _).
  exists (substring 0 63 cores). eexists.
  split; [rewrite Hcalls; reflexivity | split; [| split]].
  - apply substring_front_length.
  - apply substring_front_prefix.
  - apply substring_front_all.
Qed.

Lemma init_core_argument_witness :
  exists calls,
    map called
        (trace (run SimNic.drive (dpdk_init 0 "0-1" 16 initial_globals)
                    SimNic.idle))
    = rte_eal_init ["dpdk_capture"; "-l"; "0-1"; "--"] :: calls.
Proof.
  destruct (init_core_argument SimNic.nic SimNic.drive SimNic.idle
                               0 "0-1" 16 initial_globals)
    as (core_arg & calls & Hcalls & _ & _ & Hwhole).
  exists calls. rewrite Hcalls, Hwhole; [reflexivity |].
  cbn. lia.
Defined.

(** ** From initialisation to use *)

(** X11: after a [dpdk_init] that returned 0 for [port] and [batch_size]
    ([port] an [int], the port count answered a [uint16_t]), the other calls
    address that port with that batch size: a capture with positive
    [max_packets] asks the driver for [min max_packets b] frames on queue 0
    of [port], where [b] is [batch_size] clamped to [1, 32]; a statistics
    query for another port is a plain [return -1] and one for [port] is one
    driver query on [port]; a cleanup checks, stops and closes [port]. *)
Theorem session_after_init :
  forall (W : Type) (h : handler W) (w : W) (port : Z) (cores : string)
         (batch_size : Z) (g g' : globals),
    let r := run h (dpdk_init port cores batch_size g) w in
    - 2 ^ 31 <= port < 2 ^ 31 ->
    Forall (fun n => 0 <= n < 2 ^ 16) (observe avail_ports (trace r)) ->
    result r = Done (0, g') ->
    (forall max_packets,
        0 < max_packets ->
        burst_call max_packets g'
        = rte_eth_rx_burst port 0
                           (Z.min max_packets (clamp_batch_size batch_size)))
    /\ (forall other outs,
           other <> port ->
           dpdk_get_stats other outs g' = Ret (-1, outs, g'))
    /\ (forall outs (w' : W),
           map called (trace (run h (dpdk_get_stats port outs g') w'))
           = [rte_eth_stats_get port])
    /\ (forall valid,
           valid <> 0 ->
           teardown_calls g' valid
           = [printf "Cleaning up DPDK resources...\n" [];
              rte_eth_dev_is_valid_port port;
              rte_eth_dev_stop port;
              rte_eth_dev_close port;
              rte_eal_cleanup;
              printf "DPDK cleanup completed\n" []]).
Proof.
  intros W h w port cores batch_size g g'. cbv zeta.
  intros Hint Hrange Hrun.
  pose proof (dpdk_init_calls h w port cores batch_size g) as H.
  apply wp_run in H.
  destruct H as (ret & g1 & nb & socket & pcalls & Hrun' & _ & _ & Hstage).
  rewrite Hrun in Hrun'. injection Hrun' as <- <-.
  pose proof (dpdk_init_paths h w port cores batch_size g) as H.
  apply wp_run in H. destruct H as (ret & g1 & Hrun' & Hpost & _).
  rewrite Hrun in Hrun'. injection Hrun' as <- <-.
  assert (Hbatch : g_batch_size g' = clamp_batch_size batch_size).
  { destruct Hpost as [[H _] | [[H _] | [_ [pool ->]]]];
      [lia | lia | reflexivity]. }
  assert (Hport : g_port_id g' = port /\ 0 <= port < 2 ^ 16).
  { destruct Hstage as [H | [Hnb [[H _] | [[H _] | (_ & Hne & Hlt & Hg)]]]];
      [lia | lia | lia |].
    split; [exact Hg |].
    rewrite Hnb in Hrange. apply Forall_inv in Hrange.
    unfold u32 in Hlt. change (2 ^ 32) with 4294967296 in Hlt.
    change (2 ^ 31) with 2147483648 in Hint.
    change (2 ^ 16) with 65536 in *.
    Z.to_euclidean_division_equations. lia. }
  destruct Hport as [Hport Hu16].
  assert (Hcast : u16 (g_port_id g') = port)
    by (rewrite Hport; apply u16_small; exact Hu16).
  split; [| split; [| split]].
  - intros max_packets Hmax. unfold burst_call.
    rewrite Hcast, capture_count_u16, Hbatch;
      [reflexivity | exact Hmax |].
    rewrite Hbatch. apply clamp_batch_size_range.
  - intros other outs Hne. apply get_stats_mismatch. rewrite Hport. exact Hne.
  - intros outs w'. rewrite <- Hport at 1. rewrite get_stats_match.
    cbn [trace snd map called projT1]. rewrite Hcast. reflexivity.
  - intros valid Hvalid. unfold teardown_calls. rewrite Hcast.
    replace (valid =? 0) with false by (symmetry; apply Z.eqb_neq; exact Hvalid).
    reflexivity.
Qed.

Lemma session_after_init_witness :
  burst_call 40 (configured 0 16 (Some 1) initial_globals)
  = rte_eth_rx_burst 0 0 (Z.min 40 (clamp_batch_size 16)).
Proof.
  destruct (session_after_init
              SimNic.nic SimNic.drive SimNic.idle 0 "0-1" 16 initial_globals
              (configured 0 16 (Some 1) initial_globals))
    as [Hburst _].
  - vm_compute. split; [discriminate | reflexivity].
  - vm_compute. repeat constructor; discriminate.
  - vm_compute. reflexivity.
  - apply (Hburst 40). lia.
Defined.

(** X12: what [dpdk_init] leaves in the session is fixed by the value it
    returns.  On -1, -2 and -3 the session is as it was.  Past the port
    checks the port and the clamped batch size are stored before anything
    else is tried, so a failed initialisation keeps them: on -4 the pool
    pointer is NULL besides, on -5 and on 0 it is the pool that was
    created.  [force_quit] is never touched. *)
Theorem init_session_written :
  forall (W : Type) (h : handler W) (w : W) (port : Z) (cores : string)
         (batch_size : Z) (g : globals) (ret : Z) (g' : globals),
    result (run h (dpdk_init port cores batch_size g) w) = Done (ret, g') ->
    (ret = -1 \/ ret = -2 \/ ret = -3 -> g' = g)
    /\ (ret = -4 ->
        g' = {| mbuf_pool := None; g_port_id := port;
                g_batch_size := clamp_batch_size batch_size;
                force_quit := force_quit g |})
    /\ (ret = -5 \/ ret = 0 ->
        exists pool,
          g' = {| mbuf_pool := Some pool; g_port_id := port;
                  g_batch_size := clamp_batch_size batch_size;
                  force_quit := force_quit g |})
    /\ force_quit g' = force_quit g.
Proof.
  intros W h w port cores batch_size g ret g' Hrun.
  pose proof (dpdk_init_paths h w port cores batch_size g) as H.
  apply wp_run in H. destruct H as (ret' & g1 & Hrun' & Hpost & _).
  rewrite Hrun in Hrun'. injection Hrun' as <- <-.
  destruct Hpost as [[Hret ->] | [[-> ->] | [Hret [pool ->]]]].
  - repeat split; try reflexivity; intros; lia.
  - repeat split; try reflexivity; intros; lia.
  - split; [intros; lia | split; [intros; lia | split; [| reflexivity]]].
    intros _. exists pool. reflexivity.
Qed.

Lemma init_session_written_witness :
  exists pool,
    configured 0 16 (Some 1) initial_globals
    = {| mbuf_pool := Some pool; g_port_id := 0;
         g_batch_size := clamp_batch_size 16;
         force_quit := force_quit initial_globals |}.
Proof.
  destruct (init_session_written
              SimNic.nic SimNic.drive SimNic.stuck 0 "0-1" 16 initial_globals
              (-5) (configured 0 16 (Some 1) initial_globals))
    as (_ & _ & Hpool & _).
  - vm_compute. reflexivity.
  - apply Hpool. left. reflexivity.
Defined.
